(** * Polaris demo setup script (setup.py): model and properties

    A shallow embedding of [setup.py]: the credential discovery in the
    container log, the token exchange, the seven management calls and the
    process entry point, followed by the properties of the written contract
    that were checked against it.

    Conventions.
    - A Python [str] is a [string]; a character stands for the code point
      of the same number (0..255), so [lower], [isspace], the regex classes
      and the case-insensitive match are the Unicode ones restricted to
      that range. Text with a code point above 255 is outside the model:
      nothing is stated here about a log that holds one.
    - A function that may raise returns a [result]; functions with effects
      (requests, logging, printing, files, the shared default list) run in
      the monad [M], which threads a [state] and keeps it when an exception
      is raised.
    - Everything outside the script (container daemon, environment, the
      HTTP library and the server behind it, template engine, operating
      system) is a field of the record [world]. A request that the script
      hands to [requests.post] / [requests.put] is recorded in [issued];
      whether it goes out, and what comes back, is decided by the world. *)

From Stdlib Require Import Bool Arith NArith ZArith Lia List Ascii String.
From Stdlib Require Import Permutation Sorted DecimalString.
Import ListNotations.

Local Open Scope string_scope.
Local Open Scope list_scope.

Infix "+++" := String.append (right associativity, at level 60).

(* ================================================================== *)
(** ** Python string primitives *)

Module Str.

Definition code (c : ascii) : N := N_of_ascii c.

Definition between (lo hi n : N) : bool := ((lo <=? n) && (n <=? hi))%N.

(** [str.isspace] on one character; also the regex class [\s]. *)
Definition isspace (c : ascii) : bool :=
  let n := code c in
  between 9 13 n || between 28 31 n || (n =? 32)%N || (n =? 133)%N || (n =? 160)%N.

(** [str.lower] on one character. *)
Definition lower_char (c : ascii) : ascii :=
  let n := code c in
  if between 65 90 n || between 192 214 n || between 216 222 n
  then ascii_of_N (n + 32) else c.

Fixpoint lower (s : string) : string :=
  match s with
  | EmptyString => EmptyString
  | String c r => String (lower_char c) (lower r)
  end.

(** [s.startswith(p)] *)
Fixpoint startswith (p s : string) : bool :=
  match p, s with
  | EmptyString, _ => true
  | String a p', String b s' => Ascii.eqb a b && startswith p' s'
  | String _ _, EmptyString => false
  end.

(** [needle in hay] *)
Fixpoint contains (needle hay : string) : bool :=
  startswith needle hay ||
  match hay with
  | EmptyString => false
  | String _ r => contains needle r
  end.

Fixpoint lstrip (s : string) : string :=
  match s with
  | EmptyString => EmptyString
  | String c r => if isspace c then lstrip r else s
  end.

Fixpoint rstrip (s : string) : string :=
  match s with
  | EmptyString => EmptyString
  | String c r =>
      match rstrip r with
      | EmptyString => if isspace c then EmptyString else String c EmptyString
      | r' => String c r'
      end
  end.

(** [s.strip()] *)
Definition strip (s : string) : string := rstrip (lstrip s).

(** Cut [s] at the first occurrence of [c]. *)
Fixpoint break_at (c : ascii) (s : string) : option (string * string) :=
  match s with
  | EmptyString => None
  | String a r =>
      if Ascii.eqb a c then Some (EmptyString, r)
      else match break_at c r with
           | Some (x, y) => Some (String a x, y)
           | None => None
           end
  end.

(** [s.split(c, 1)] *)
Definition split1 (c : ascii) (s : string) : list string :=
  match break_at c s with
  | Some (x, y) => [x; y]
  | None => [s]
  end.

(** [s.split(c)] *)
Fixpoint split (c : ascii) (s : string) : list string :=
  match s with
  | EmptyString => [EmptyString]
  | String a r =>
      if Ascii.eqb a c then EmptyString :: split c r
      else match split c r with
           | x :: xs => String a x :: xs
           | [] => [String a EmptyString]
           end
  end.

(** [s[:n]] *)
Fixpoint take (n : nat) (s : string) : string :=
  match n, s with
  | S n', String c r => String c (take n' r)
  | _, _ => EmptyString
  end.

(** [c in s] for one character *)
Fixpoint has_char (c : ascii) (s : string) : bool :=
  match s with
  | EmptyString => false
  | String a r => Ascii.eqb a c || has_char c r
  end.


Definition LF : ascii := "010"%char.
Definition CR : ascii := "013"%char.
Definition colon : ascii := ":"%char.

End Str.

(* ================================================================== *)
(** ** Exceptions and results *)

Inductive exn : Type :=
| ValueError | TypeError | KeyError | IndexError | UnboundLocalError
| ConnectionError | HTTPError | JSONDecodeError | InvalidURL | InvalidHeader
| TemplateNotFound
| FileExistsError | FileNotFoundError | NotADirectoryError | IsADirectoryError
| PermissionError | OSError.

(** [isinstance(e, requests.exceptions.RequestException)] *)
Definition is_RequestException (e : exn) : bool :=
  match e with
  | ConnectionError | HTTPError | JSONDecodeError | InvalidURL | InvalidHeader => true
  | _ => false
  end.

Inductive result (A : Type) : Type :=
| Ok (a : A)
| Raise (e : exn).
Arguments Ok {A} a.
Arguments Raise {A} e.

(* ================================================================== *)
(** ** [datetime] and [datetime.strptime] for the format of the script *)

Module DT.

Record datetime : Type := mk {
  year : N; month : N; day : N;
  hour : N; minute : N; second : N; microsecond : N
}.

(** [datetime.min] *)
Definition min : datetime := mk 1 1 1 0 0 0 0.

Definition fields (d : datetime) : list N :=
  [year d; month d; day d; hour d; minute d; second d; microsecond d].

(** Comparison of naive datetimes: field by field, most significant first. *)
Fixpoint lex (a b : list N) : comparison :=
  match a, b with
  | [], [] => Eq
  | [], _ :: _ => Lt
  | _ :: _, [] => Gt
  | x :: a', y :: b' =>
      match N.compare x y with
      | Eq => lex a' b'
      | c => c
      end
  end.

Definition compare (a b : datetime) : comparison := lex (fields a) (fields b).
Definition ltb (a b : datetime) : bool :=
  match compare a b with Lt => true | _ => false end.

Definition is_leap (y : N) : bool :=
  ((y mod 4 =? 0) && (negb (y mod 100 =? 0) || (y mod 400 =? 0)))%N.

Definition days_in_month (y m : N) : N :=
  if (m =? 2)%N then (if is_leap y then 29 else 28)
  else if ((m =? 4) || (m =? 6) || (m =? 9) || (m =? 11))%N then 30
  else 31.

(** The constructor [datetime(y, m, d, H, M, S, f)] with its range checks. *)
Definition make (y m d hh mi ss f : N) : result datetime :=
  if ((1 <=? y) && (y <=? 9999) && (1 <=? m) && (m <=? 12)
      && (1 <=? d) && (d <=? days_in_month y m)
      && (hh <=? 23) && (mi <=? 59) && (ss <=? 59) && (f <=? 999999))%N
  then Ok (mk y m d hh mi ss f)
  else Raise ValueError.

(** *** The compiled format regex, as a backtracking matcher

    A matcher returns every way to match a prefix of its input, most
    preferred first, with the rest of the input; [re.match] takes the
    first one. *)

Definition matcher (A : Type) : Type := string -> list (A * string).

Definition ret {A} (a : A) : matcher A := fun s => [(a, s)].
Definition bind {A B} (p : matcher A) (f : A -> matcher B) : matcher B :=
  fun s => flat_map (fun ar => f (fst ar) (snd ar)) (p s).
Definition alt {A} (p q : matcher A) : matcher A := fun s => p s ++ q s.
Definition sat (ok : ascii -> bool) : matcher ascii :=
  fun s => match s with
           | String c r => if ok c then [(c, r)] else []
           | EmptyString => []
           end.

Notation "x <- p ;; q" := (bind p (fun x => q))
  (at level 61, p at next level, right associativity).

Definition digit_val (c : ascii) : N := Str.code c - 48.

(** A digit in the range [lo-hi], for classes such as [[0-2]]; [\d] is [0-9]. *)
Definition dig (lo hi : N) : matcher N :=
  c <- sat (fun c => Str.between (48 + lo) (48 + hi) (Str.code c)) ;; ret (digit_val c).

(** A literal character of the format, matched ignoring case. *)
Definition lit (c : ascii) : matcher unit :=
  _ <- sat (fun a => Ascii.eqb (Str.lower_char a) (Str.lower_char c)) ;; ret tt.

Definition two (p q : matcher N) : matcher N :=
  a <- p ;; b <- q ;; ret (10 * a + b)%N.

(** [%Y]: [\d\d\d\d] *)
Definition re_Y : matcher N :=
  a <- dig 0 9 ;; b <- dig 0 9 ;; c <- dig 0 9 ;; d <- dig 0 9 ;;
  ret (1000 * a + 100 * b + 10 * c + d)%N.

(** [%m]: [1[0-2]|0[1-9]|[1-9]] *)
Definition re_m : matcher N :=
  alt (two (dig 1 1) (dig 0 2)) (alt (two (dig 0 0) (dig 1 9)) (dig 1 9)).

(** [%d]: [3[0-1]|[1-2]\d|0[1-9]|[1-9]| [1-9]] *)
Definition re_d : matcher N :=
  alt (two (dig 3 3) (dig 0 1))
 (alt (two (dig 1 2) (dig 0 9))
 (alt (two (dig 0 0) (dig 1 9))
 (alt (dig 1 9)
      (_ <- sat (Ascii.eqb " "%char) ;; dig 1 9)))).

(** [%H]: [2[0-3]|[0-1]\d|\d] *)
Definition re_H : matcher N :=
  alt (two (dig 2 2) (dig 0 3)) (alt (two (dig 0 1) (dig 0 9)) (dig 0 9)).

(** [%M]: [[0-5]\d|\d] *)
Definition re_M : matcher N :=
  alt (two (dig 0 5) (dig 0 9)) (dig 0 9).

(** [%S]: [6[0-1]|[0-5]\d|\d] *)
Definition re_S : matcher N :=
  alt (two (dig 6 6) (dig 0 1)) (alt (two (dig 0 5) (dig 0 9)) (dig 0 9)).

(** Greedy [p{0,n}]. *)
Fixpoint upto {A} (n : nat) (p : matcher A) : matcher (list A) :=
  match n with
  | O => ret []
  | S n' => alt (x <- p ;; xs <- upto n' p ;; ret (x :: xs)) (ret [])
  end.

(** Value of the digits of [%f] once padded with zeros to six places. *)
Fixpoint frac_val (width : nat) (ds : list N) : N :=
  match width with
  | O => 0
  | S w => match ds with
           | d :: ds' => d * 10 ^ N.of_nat w + frac_val w ds'
           | [] => 0
           end
  end.

(** [%f]: [[0-9]{1,6}] *)
Definition re_f : matcher N :=
  d <- dig 0 9 ;; ds <- upto 5 (dig 0 9) ;; ret (frac_val 6 (d :: ds)).

(** The regex compiled from ["%Y-%m-%dT%H:%M:%S.%fZ"]. *)
Definition format_regex : matcher (N * N * N * N * N * N * N) :=
  y <- re_Y ;; _ <- lit "-" ;; m <- re_m ;; _ <- lit "-" ;; d <- re_d ;;
  _ <- lit "T" ;;
  hh <- re_H ;; _ <- lit ":" ;; mi <- re_M ;; _ <- lit ":" ;; ss <- re_S ;;
  _ <- lit "." ;; f <- re_f ;; _ <- lit "Z" ;;
  ret (y, m, d, hh, mi, ss, f).

(** [datetime.strptime(data_string, "%Y-%m-%dT%H:%M:%S.%fZ")] *)
Definition strptime (data_string : string) : result datetime :=
  match format_regex data_string with
  | [] => Raise ValueError                         (* does not match format *)
  | ((y, m, d, hh, mi, ss, f), rest) :: _ =>
      match rest with
      | String _ _ => Raise ValueError             (* unconverted data remains *)
      | EmptyString => make y m d hh mi ss f
      end
  end.

End DT.

(* ================================================================== *)
(** ** Python values of JSON shape *)

(** [PNone] is Python's [None] (JSON [null]); a number is carried as the
    text [str()] gives for it; a dict is its items in insertion order,
    with distinct keys. *)
#[warnings="-register-all"]
Inductive pyval : Type :=
| PNone
| PBool (b : bool)
| PNum (shown : string)
| PStr (s : string)
| PList (items : list pyval)
| PDict (items : list (string * pyval)).

Module Py.

Definition dquote : ascii := "034"%char.
Definition squote : ascii := "039"%char.
Definition backslash : ascii := "092"%char.

Definition hex_digit (n : N) : ascii :=
  if (n <? 10)%N then ascii_of_N (48 + n) else ascii_of_N (87 + n).

(** [str.isprintable] on one character. *)
Definition printable (c : ascii) : bool :=
  let n := Str.code c in
  negb ((n <? 32)%N || Str.between 127 160 n || (n =? 173)%N).

Definition repr_char (quote c : ascii) : string :=
  let n := Str.code c in
  if Ascii.eqb c quote || Ascii.eqb c backslash then String backslash (String c "")
  else if (n =? 9)%N then String backslash "t"
  else if (n =? 10)%N then String backslash "n"
  else if (n =? 13)%N then String backslash "r"
  else if printable c then String c ""
  else String backslash
         (String "x" (String (hex_digit (n / 16)) (String (hex_digit (n mod 16)) ""))).

Fixpoint repr_chars (quote : ascii) (s : string) : string :=
  match s with
  | EmptyString => EmptyString
  | String c r => repr_char quote c +++ repr_chars quote r
  end.

(** [repr(s)] for a [str]. *)
Definition repr_str (s : string) : string :=
  let quote :=
    if Str.has_char squote s && negb (Str.has_char dquote s) then dquote else squote in
  String quote (repr_chars quote s +++ String quote "").

Fixpoint join (sep : string) (l : list string) : string :=
  match l with
  | [] => ""
  | [x] => x
  | x :: r => x +++ sep +++ join sep r
  end.

(** [repr(v)] *)
Fixpoint repr (v : pyval) : string :=
  match v with
  | PNone => "None"
  | PBool true => "True"
  | PBool false => "False"
  | PNum shown => shown
  | PStr s => repr_str s
  | PList items =>
      "[" +++ join ", " ((fix each (l : list pyval) : list string :=
                            match l with
                            | [] => []
                            | x :: r => repr x :: each r
                            end) items) +++ "]"
  | PDict items =>
      "{" +++ join ", " ((fix each (l : list (string * pyval)) : list string :=
                            match l with
                            | [] => []
                            | (k, x) :: r => (repr_str k +++ ": " +++ repr x) :: each r
                            end) items) +++ "}"
  end.

(** [str(v)], which is what an f-string field [{v}] renders. *)
Definition str (v : pyval) : string :=
  match v with
  | PStr s => s
  | _ => repr v
  end.

(** [str(n)] for an [int]. *)
Definition str_int (n : Z) : string := NilEmpty.string_of_int (Z.to_int n).

Fixpoint lookup {A} (k : string) (l : list (string * A)) : option A :=
  match l with
  | [] => None
  | (k', v) :: r => if String.eqb k k' then Some v else lookup k r
  end.

(** [v[k]] for a string key. *)
Definition getitem (v : pyval) (k : string) : result pyval :=
  match v with
  | PDict items => match lookup k items with
                   | Some x => Ok x
                   | None => Raise KeyError
                   end
  | _ => Raise TypeError
  end.

(** [a, b = t] where [t] is a tuple or [None]. *)
Definition unpack2 {A} (t : option (list A)) : result (A * A) :=
  match t with
  | None => Raise TypeError
  | Some [a; b] => Ok (a, b)
  | Some _ => Raise ValueError
  end.

(** [l[0]] where [l] is a list or [None]. *)
Definition first {A} (l : option (list A)) : result A :=
  match l with
  | None => Raise TypeError
  | Some [] => Raise IndexError
  | Some (x :: _) => Ok x
  end.

End Py.

(* ================================================================== *)
(** ** The world outside the script *)

Record port_binding : Type := { HostIp : string; HostPort : string }.

(** A container as the script reads it: [id], the decoded text of
    [logs(timestamps=True)] (code points 0..255 only) and
    [attrs["NetworkSettings"]["Ports"]]. *)
Record container : Type := {
  id : string;
  logs : string;
  Ports : list (string * option (list port_binding))
}.

Record filters : Type := {
  label : list string;
  name : list string;
  status : string
}.

Inductive http_method : Type := POST | PUT.

(** [data=]: a form dict, or the text of [json.dumps(payload)], kept as the
    payload it serialises. *)
Inductive payload : Type :=
| Form (fields : list (string * string))
| Dumps (p : pyval).

Record request : Type := {
  method : http_method;
  url : string;
  headers : list (string * string);
  data : payload
}.

(** The body of a response: empty, bytes that are not JSON, or JSON. *)
Inductive content : Type :=
| Empty
| NotJson (raw : string)
| Json (v : pyval).

Record response : Type := { status_code : Z; body : content }.

(** What becomes of a call of [requests.post] / [requests.put].
    - [Responded r]: the request went out and [r] came back.
    - [Unreachable]: the request went out and no response came back.
    - [Refused e]: the library raised [e] while preparing the request and
      nothing went out: [InvalidURL] for a URL it cannot parse (a port that
      is not a number, as in [http://localhost:None/...]), [InvalidHeader]
      for a header value holding a carriage return or a line feed; [e] may
      also be an exception outside [RequestException], such as the
      [ValueError] of [http.client] for a header value that ends in a line
      feed. *)
Inductive outcome : Type :=
| Responded (r : response)
| Unreachable
| Refused (e : exn).

(** The file operations of the notebook emitter. *)
Inductive file_op : Type :=
| Mkdir (d : string)
| OpenW (path : string)
| WriteTo (path : string).

Record world : Type := {
  (** [os.environ] once [load_dotenv()] has run *)
  environ : list (string * string);
  (** [CLIENT.containers.list(all=True, filters=...)] *)
  containers_list : filters -> list container;
  (** [requests] and the HTTP server behind it: what becomes of a request
      handed to the library, given the requests handed to it before *)
  server : list request -> request -> outcome;
  (** loading and rendering [templates/setup_verify_notebook.ipynb.j2] *)
  render : list (string * pyval) -> result string;
  (** a file operation that fails for a reason outside the directory tree
      (no permission, a read-only or a full disk, text that the encoding
      cannot write): the exception raised, or [None] when the operation
      goes through *)
  os_error : file_op -> option exn;
  (** how many characters a failing write has put down when it fails *)
  short_write : nat
}.

(** [os.getenv(k)] and [os.getenv(k, default)] *)
Definition getenv (w : world) (k : string) : option string := Py.lookup k (environ w).
Definition getenv_or (w : world) (k default : string) : string :=
  match getenv w k with Some v => v | None => default end.

(* ================================================================== *)
(** ** State and effects *)

Inductive level : Type := DEBUG | INFO | ERROR.

(** A line of output: text, text followed by the message of an exception,
    or the text of [json.dumps(p)]. *)
Inductive text : Type :=
| T (s : string)
| TE (s : string) (e : exn)
| TJ (p : pyval).

(** A list object is known by its reference. *)
Definition ref : Type := nat.

Record state : Type := {
  (** the calls of [requests.post] / [requests.put], oldest first: each
      request as the script handed it to the library, whatever became of it
      ([Responded], [Unreachable] or [Refused]) *)
  issued : list request;
  (** records given to LOGGER *)
  logged : list (level * text);
  (** lines given to print *)
  printed : list text;
  (** directories under the working directory, by path *)
  dirs : list string;
  (** files under the working directory: path and content *)
  files : list (string * string);
  (** the list objects *)
  heap : ref -> list string
}.

Definition M (A : Type) : Type := state -> result A * state.

Definition ret {A} (a : A) : M A := fun st => (Ok a, st).
Definition raise {A} (e : exn) : M A := fun st => (Raise e, st).
Definition bind {A B} (m : M A) (f : A -> M B) : M B :=
  fun st => match m st with
            | (Ok a, st') => f a st'
            | (Raise e, st') => (Raise e, st')
            end.
Definition lift {A} (r : result A) : M A := fun st => (r, st).

Notation "'do' x <- m ; k" := (bind m (fun x => k))
  (at level 10, x name, m at level 99, k at level 200).
Notation "m ;; k" := (bind m (fun _ => k))
  (at level 100, right associativity).

(** Modelled from the spec: the module [log.logger] is not among the
    sources; [LOGGER.<level>(msg)] records the message and returns. *)
Definition LOGGER (l : level) (msg : text) : M unit :=
  fun st => (Ok tt, {| issued := issued st; logged := logged st ++ [(l, msg)];
                       printed := printed st; dirs := dirs st;
                       files := files st; heap := heap st |}).

Definition print (msg : text) : M unit :=
  fun st => (Ok tt, {| issued := issued st; logged := logged st;
                       printed := printed st ++ [msg]; dirs := dirs st;
                       files := files st; heap := heap st |}).

(** [requests.post] / [requests.put]: the call is recorded with the request
    it was given; it returns the response, or raises [ConnectionError] when
    none came back, or raises what the library raised when it refused the
    request. *)
Definition http (w : world) (r : request) : M response :=
  fun st =>
    let st' := {| issued := issued st ++ [r]; logged := logged st;
                  printed := printed st; dirs := dirs st;
                  files := files st; heap := heap st |} in
    match server w (issued st) r with
    | Responded resp => (Ok resp, st')
    | Unreachable => (Raise ConnectionError, st')
    | Refused e => (Raise e, st')
    end.

(** [response.json()] *)
Definition json (r : response) : result pyval :=
  match body r with
  | Json v => Ok v
  | _ => Raise JSONDecodeError
  end.

(** [response.raise_for_status()] *)
Definition raise_for_status (r : response) : result unit :=
  if ((400 <=? status_code r) && (status_code r <? 600))%Z
  then Raise HTTPError else Ok tt.

(** Truth value of [response.content] *)
Definition has_content (r : response) : bool :=
  match body r with
  | Empty => false
  | NotJson raw => negb (String.eqb raw "")
  | Json _ => true
  end.

(** [try: response = call; body  except RequestException as e: handler].
    The handler reads the local [response], which is unbound ([None] here)
    when the call itself raised. *)
Definition try_request {A} (call : M response) (body : response -> M A)
    (handler : option response -> exn -> M A) : M A :=
  fun st =>
    match call st with
    | (Raise e, st1) =>
        if is_RequestException e then handler None e st1 else (Raise e, st1)
    | (Ok r, st1) =>
        match body r st1 with
        | (Raise e, st2) =>
            if is_RequestException e then handler (Some r) e st2 else (Raise e, st2)
        | done => done
        end
    end.

(** Reading the local variable [response]. *)
Definition local (v : option response) : M response :=
  match v with
  | Some r => ret r
  | None => raise UnboundLocalError
  end.

(* ================================================================== *)
(** ** The script *)

Definition phrase : string := "root principal credentials".

(** Default of [get_polaris_container]'s [project_name], read at import. *)
Definition project_name_default (w : world) : option string :=
  getenv w "COMPOSE_PROJECT_NAME".

Definition get_polaris_container (w : world) (project_name : option string)
  : option container :=
  let base := ["com.docker.compose.project"] in
  let label :=
    match project_name with
    | Some (String c r) => base ++ ["com.docker.compose.project=" +++ String c r]
    | _ => base
    end in
  let filters := {| label := label; name := ["polaris"]; status := "running" |} in
  match containers_list w filters with
  | c :: _ => Some c
  | [] => None
  end.

Definition extract_timestamp (line : string) : M DT.datetime :=
  let timestamp_str := Str.take 26 line +++ "Z" in
  match DT.strptime timestamp_str with
  | Ok d => ret d
  | Raise ValueError =>
      LOGGER ERROR (T ("Error parsing timestamp from line: " +++ line)) ;;
      ret DT.min
  | Raise e => raise e
  end.

Fixpoint mapM {A B} (f : A -> M B) (l : list A) : M (list B) :=
  match l with
  | [] => ret []
  | x :: r => do y <- f x; do ys <- mapM f r; ret (y :: ys)
  end.

(** [sorted(l, key=key, reverse=True)]: the keys are computed once, in
    order; the result is in descending key order, and items with equal
    keys keep their order. *)
Fixpoint insert_desc {A} (x : DT.datetime * A) (l : list (DT.datetime * A))
  : list (DT.datetime * A) :=
  match l with
  | [] => [x]
  | y :: l' => if DT.ltb (fst x) (fst y) then y :: insert_desc x l' else x :: l
  end.

Fixpoint sort_desc {A} (l : list (DT.datetime * A)) : list (DT.datetime * A) :=
  match l with
  | [] => []
  | x :: l' => insert_desc x (sort_desc l')
  end.

Definition sorted_reverse {A} (key : A -> M DT.datetime) (l : list A) : M (list A) :=
  do keys <- mapM key l;
  ret (map snd (sort_desc (combine keys l))).

Definition is_root_cred_line (line : string) : bool :=
  Str.contains phrase (Str.lower line).

Definition get_root_cred_log_lines (w : world) : M (option (list string)) :=
  match get_polaris_container w (project_name_default w) with
  | Some polaris_container =>
      LOGGER DEBUG (T ("Polaris Container with ID: " +++ id polaris_container)) ;;
      let log_lines := Str.split Str.LF (logs polaris_container) in
      let line_with_root_creds := filter is_root_cred_line log_lines in
      do r <- sorted_reverse extract_timestamp line_with_root_creds;
      ret (Some r)
  | None => ret None
  end.

(** *** [re.search(r"root principal credentials\s*:(.*?)(?:\n|$)", line, re.IGNORECASE)] *)

(** The literal [p] at the start of [s], ignoring case; what follows it.
    Among the code points 0..255 a character matches a letter of the
    pattern under [re.IGNORECASE] exactly when the two have the same lower
    case. (Above 255 the regex also takes U+017F for [s] and U+0130,
    U+0131 for [i], on which the test with [str.lower] does not agree;
    such text is outside the model.) *)
Fixpoint literal_icase (p s : string) : option string :=
  match p, s with
  | EmptyString, _ => Some s
  | String a p', String b s' =>
      if Ascii.eqb (Str.lower_char a) (Str.lower_char b) then literal_icase p' s' else None
  | String _ _, EmptyString => None
  end.

(** [(.*?)(?:\n|$)]: the shortest run of characters other than a newline
    that ends at a newline or at the end of the text. *)
Fixpoint group1 (s : string) : string :=
  match s with
  | EmptyString => EmptyString
  | String c r => if Ascii.eqb c Str.LF then EmptyString else String c (group1 r)
  end.

(** The pattern matched at the start of [s]: [Some] of group 1. *)
Definition match_here (s : string) : option string :=
  match literal_icase phrase s with
  | Some r =>
      match Str.lstrip r with                        (* \s* *)
      | String c r' => if Ascii.eqb c Str.colon then Some (group1 r') else None
      | EmptyString => None
      end
  | None => None
  end.

(** The leftmost match: group 1 of it. *)
Fixpoint re_search (s : string) : option string :=
  match match_here s with
  | Some g => Some g
  | None => match s with
            | EmptyString => None
            | String _ r => re_search r
            end
  end.

(** The body of [extract_root_principal_credentials] once [cred_line] is
    chosen: a tuple of one or two strings, or [None]. *)
Definition credentials_of_line (cred_line : string) : option (list string) :=
  if Str.contains phrase (Str.lower cred_line) then
    match re_search cred_line with
    | Some g => Some (Str.split1 Str.colon (Str.strip g))
    | None => None
    end
  else None.

Definition extract_root_principal_credentials (w : world) : M (option (list string)) :=
  do r_lines <- get_root_cred_log_lines w;
  do cred_line <- lift (Py.first r_lines);
  ret (credentials_of_line cred_line).

(** Returns the host port, or [None]. *)
Definition get_api_port (w : world) (container_port : Z) : option string :=
  match get_polaris_container w (project_name_default w) with
  | Some polaris_container =>
      let container_port := Py.str_int container_port +++ "/tcp" in
      let mappings :=
        match Py.lookup container_port (Ports polaris_container) with
        | Some m => m
        | None => Some []
        end in
      match mappings with
      | Some (m0 :: _) => Some (HostPort m0)
      | _ => None
      end
  | None => None
  end.

(** An f-string field holding a [str] or [None]. *)
Definition fmt (v : option string) : string :=
  match v with Some s => s | None => "None" end.

(** The request that [get_auth_token] posts. *)
Definition token_request (client_id client_secret polaris_api_host : string)
    (polaris_api_port : option string) : request :=
  {| method := POST;
     url := "http://" +++ polaris_api_host +++ ":" +++ fmt polaris_api_port
            +++ "/api/catalog/v1/oauth/tokens";
     headers := [("Authorization", "Bearer " +++ client_id +++ ":" +++ client_secret);
                 ("accept", "application/json");
                 ("content-type", "application/x-www-form-urlencoded")];
     data := Form [("grant_type", "client_credentials");
                   ("client_id", client_id);
                   ("client_secret", client_secret);
                   ("scope", "PRINCIPAL_ROLE:ALL")] |}.

Definition get_auth_token (w : world) (client_id client_secret polaris_api_host : string)
    (polaris_api_port : option string) : M pyval :=
  do response <- http w (token_request client_id client_secret
                                        polaris_api_host polaris_api_port);
  if (status_code response =? 200)%Z then
    do j <- lift (json response);
    lift (Py.getitem j "access_token")
  else ret PNone.

Definition build_headers (auth_token : pyval) : list (string * string) :=
  [("Authorization", "Bearer " +++ Py.str auth_token);
   ("accept", "application/json");
   ("content-type", "application/json")].

(** The handler shared by the steps that print:
    [print(response.json()); print(f"An error occurred: {e}")]. *)
Definition print_error (response : option response) (e : exn) : M unit :=
  do r <- local response;
  do j <- lift (json r);
  print (T (Py.str j)) ;;
  print (TE "An error occurred: " e).

(** The tail of the [try] body shared by the steps that only log:
    [response.raise_for_status(); if response.status_code == 201: LOGGER.info(msg)]. *)
Definition check_created (msg : string) (response : response) : M unit :=
  lift (raise_for_status response) ;;
  if (status_code response =? 201)%Z then LOGGER INFO (T msg) else ret tt.

(** Defaults of the keyword arguments, read at import. *)
Definition catalog_name_default (w : world) : string :=
  getenv_or w "POLARIS_CATALOG_NAME" "my_catalog".
Definition default_base_location_default (w : world) : string :=
  getenv_or w "POLARIS_DEFAULT_BASE_LOCATION" "file:///data/polaris".
Definition principal_name_default (w : world) : string :=
  getenv_or w "POLARIS_PRINCIPAL_NAME" "polarisuser".
Definition principal_role_default (w : world) : string :=
  getenv_or w "POLARIS_PRINCIPAL_ROLE_NAME" "polarisuser_role".
Definition catalog_role_default (w : world) : string :=
  getenv_or w "POLARIS_CATALOG_ROLE_NAME" "my_catalog_role".

(** The list object created once, when [create_catalog] is defined, for the
    default of [allowed_locations]. *)
Definition allowed_locations_default : ref := 0%nat.

(** [l.append(x)] on the list object [l]. *)
Definition append (l : ref) (x : string) : M unit :=
  fun st => (Ok tt, {| issued := issued st; logged := logged st;
                       printed := printed st; dirs := dirs st; files := files st;
                       heap := fun r => if Nat.eqb r l then heap st l ++ [x]
                                        else heap st r |}).

(** The content of the list object [l]. *)
Definition deref (l : ref) : M (list string) := fun st => (Ok (heap st l), st).

Definition catalog_payload (catalog_name default_base_location storage_type : string)
    (allowed_locations : list string) : pyval :=
  PDict [("catalog",
          PDict [("name", PStr catalog_name);
                 ("type", PStr "INTERNAL");
                 ("readOnly", PBool false);
                 ("properties",
                  PDict [("default-base-location", PStr default_base_location)]);
                 ("storageConfigInfo",
                  PDict [("storageType", PStr storage_type);
                         ("allowedLocations", PList (map PStr allowed_locations))])])].

Definition create_catalog (w : world) (root_auth_token : pyval)
    (polaris_catalog_mgmt_uri catalog_name default_base_location storage_type : string)
    (allowed_locations : ref) : M unit :=
  do current <- deref allowed_locations;
  (match current with
   | [] => append allowed_locations default_base_location
   | _ :: _ => ret tt
   end) ;;
  do items <- deref allowed_locations;
  let payload := catalog_payload catalog_name default_base_location storage_type items in
  LOGGER DEBUG (TJ payload) ;;
  try_request
    (http w {| method := POST;
               url := polaris_catalog_mgmt_uri +++ "/catalogs";
               headers := build_headers root_auth_token;
               data := Dumps payload |})
    (fun response =>
       lift (raise_for_status response) ;;
       if (status_code response =? 201)%Z then
         LOGGER INFO (T "Catalog Created Successfully") ;;
         if has_content response then
           do j <- lift (json response);
           LOGGER DEBUG (T "Response:")
         else ret tt
       else ret tt)
    print_error.

Definition create_principal (w : world) (root_auth_token : pyval)
    (polaris_catalog_mgmt_uri principal_name type : string) : M (option (list pyval)) :=
  let payload := PDict [("name", PStr principal_name); ("type", PStr type)] in
  LOGGER DEBUG (TJ payload) ;;
  try_request
    (http w {| method := POST;
               url := polaris_catalog_mgmt_uri +++ "/principals";
               headers := build_headers root_auth_token;
               data := Dumps payload |})
    (fun response =>
       lift (raise_for_status response) ;;
       if (status_code response =? 201)%Z then
         LOGGER INFO (T ("Principal " +++ principal_name +++ " Created Successfully")) ;;
         if has_content response then
           do r_json <- lift (json response);
           LOGGER DEBUG (T (Py.str r_json)) ;;
           do principal_creds <- lift (Py.getitem r_json "credentials");
           LOGGER DEBUG (T ("Credentials " +++ Py.str principal_creds)) ;;
           do client_id <- lift (Py.getitem principal_creds "clientId");
           do client_secret <- lift (Py.getitem principal_creds "clientSecret");
           ret (Some [client_id; client_secret])
         else ret None
       else ret None)
    (fun response e => print_error response e ;; ret None).

Definition create_principal_role (w : world) (root_auth_token : pyval)
    (polaris_catalog_mgmt_uri role_name : string) : M unit :=
  let payload := PDict [("name", PStr role_name)] in
  LOGGER DEBUG (TJ payload) ;;
  try_request
    (http w {| method := POST;
               url := polaris_catalog_mgmt_uri +++ "/principal-roles";
               headers := build_headers root_auth_token;
               data := Dumps payload |})
    (check_created ("Principal Role " +++ role_name +++ " Created Successfully"))
    print_error.

Definition assign_role_to_principal (w : world) (root_auth_token : pyval)
    (polaris_catalog_mgmt_uri role_name principal_name : string) : M unit :=
  let payload := PDict [("principalRole", PDict [("name", PStr role_name)])] in
  LOGGER DEBUG (TJ payload) ;;
  try_request
    (http w {| method := PUT;
               url := polaris_catalog_mgmt_uri +++ "/principals/" +++ principal_name
                      +++ "/principal-roles";
               headers := build_headers root_auth_token;
               data := Dumps payload |})
    (check_created ("Principal Role '" +++ role_name +++ "' assigned to '"
                    +++ principal_name +++ "'"))
    print_error.

Definition create_catalog_role (w : world) (root_auth_token : pyval)
    (polaris_catalog_mgmt_uri catalog_name role_name : string) : M unit :=
  let payload := PDict [("catalogRole", PDict [("name", PStr role_name)])] in
  LOGGER DEBUG (TJ payload) ;;
  try_request
    (http w {| method := POST;
               url := polaris_catalog_mgmt_uri +++ "/catalogs/" +++ catalog_name
                      +++ "/catalog-roles";
               headers := build_headers root_auth_token;
               data := Dumps payload |})
    (check_created ("Catalog Role '" +++ role_name +++ "' created for catalog '"
                    +++ catalog_name +++ "'"))
    (fun response e =>
       do r <- local response;
       do j <- lift (json r);
       LOGGER INFO (T (Py.str j)) ;;
       LOGGER ERROR (TE "An error occurred: " e)).

Definition assign_catalog_role_to_principal_role (w : world) (root_auth_token : pyval)
    (polaris_catalog_mgmt_uri principal_role catalog_role catalog_name : string) : M unit :=
  let payload := PDict [("catalogRole", PDict [("name", PStr catalog_role)])] in
  LOGGER DEBUG (TJ payload) ;;
  try_request
    (http w {| method := PUT;
               url := polaris_catalog_mgmt_uri +++ "/principal-roles/" +++ principal_role
                      +++ "/catalog-roles/" +++ catalog_name;
               headers := build_headers root_auth_token;
               data := Dumps payload |})
    (check_created ("Catalog Role '" +++ catalog_role
                    +++ "' assigned to Principal role '" +++ principal_role +++ "'"))
    print_error.

Definition grants_to_catalog_role_on_catalog (w : world) (root_auth_token : pyval)
    (polaris_catalog_mgmt_uri catalog_role catalog_name privilege type : string) : M unit :=
  let payload := PDict [("grant", PDict [("type", PStr type);
                                          ("privilege", PStr privilege)])] in
  LOGGER DEBUG (TJ payload) ;;
  try_request
    (http w {| method := PUT;
               url := polaris_catalog_mgmt_uri +++ "/catalogs/" +++ catalog_name
                      +++ "/catalog-roles/" +++ catalog_role +++ "/grants";
               headers := build_headers root_auth_token;
               data := Dumps payload |})
    (check_created ("Grants '" +++ privilege +++ "' assigned to Catalog '"
                    +++ catalog_name +++ "' role '" +++ catalog_role +++ "'"))
    print_error.

Definition notebook_dir : string := "notebooks".
Definition notebook_name : string := "polaris_setup_verify.ipynb".

(** [Path(d).joinpath(n)], for relative [d] and [n] without separators. *)
Definition joinpath (d n : string) : string := d +++ "/" +++ n.


Fixpoint mem (x : string) (l : list string) : bool :=
  match l with
  | [] => false
  | y :: r => String.eqb x y || mem x r
  end.

Fixpoint remove_key {A} (k : string) (l : list (string * A)) : list (string * A) :=
  match l with
  | [] => []
  | (k', v) :: r => if String.eqb k k' then remove_key k r else (k', v) :: remove_key k r
  end.

(** [Path(d).mkdir(exist_ok=True)], for [d] directly under the working
    directory: nothing to do when [d] is a directory, [FileExistsError] when
    it is a file, and otherwise the directory is made unless the operating
    system refuses. *)
Definition mkdir_exist_ok (w : world) (d : string) : M unit :=
  fun st =>
    if mem d (dirs st) then (Ok tt, st)
    else match Py.lookup d (files st) with
         | Some _ => (Raise FileExistsError, st)
         | None =>
             match os_error w (Mkdir d) with
             | Some e => (Raise e, st)
             | None => (Ok tt, {| issued := issued st; logged := logged st;
                                  printed := printed st; dirs := dirs st ++ [d];
                                  files := files st; heap := heap st |})
             end
         end.

(** The state in which the file at [path] holds [content]. *)
Definition with_file (path content : string) (st : state) : state :=
  {| issued := issued st; logged := logged st; printed := printed st;
     dirs := dirs st;
     files := remove_key path (files st) ++ [(path, content)];
     heap := heap st |}.

(** [with open(d.joinpath(n), "w") as f: f.write(content)]. Opening fails
    when [d] is not a directory, when the path is itself a directory, or
    when the operating system refuses. Once opened the file is empty (made,
    or truncated), so a write that fails leaves only the part of the text
    it had put down. *)
Definition write_file (w : world) (d n content : string) : M unit :=
  fun st =>
    let path := joinpath d n in
    if negb (mem d (dirs st)) then
      (Raise (match Py.lookup d (files st) with
              | Some _ => NotADirectoryError
              | None => FileNotFoundError
              end), st)
    else if mem path (dirs st) then (Raise IsADirectoryError, st)
    else match os_error w (OpenW path) with
         | Some e => (Raise e, st)
         | None =>
             match os_error w (WriteTo path) with
             | Some e => (Raise e, with_file path (Str.take (short_write w) content) st)
             | None => (Ok tt, with_file path content st)
             end
         end.

Definition generate_setup_notebook_cells (w : world)
    (principal_client_id principal_client_secret : pyval) (catalog_name : string) : M unit :=
  let template_context :=
    [("polaris_catalog_name", PStr catalog_name);
     ("principal_client_id", principal_client_id);
     ("principal_client_secret", principal_client_secret)] in
  do content <- lift (render w template_context);
  mkdir_exist_ok w notebook_dir ;;
  write_file w notebook_dir notebook_name content.

(** The URL prefix of the management API, as [run_steps] builds it. *)
Definition mgmt_uri (polaris_api_host : string) (polaris_api_port : option string) : string :=
  "http://" +++ polaris_api_host +++ ":" +++ fmt polaris_api_port +++ "/api/management/v1".

(** [run_steps] has no [return] statement: what it returns is [None]. *)
Definition run_steps (w : world) : M (option (list pyval)) :=
  do creds <- extract_root_principal_credentials w;
  do ids <- lift (Py.unpack2 creds);
  let client_id := fst ids in
  let client_secret := snd ids in
  LOGGER INFO (T ("Client ID: " +++ client_id +++ ",Client Secret: " +++ client_secret)) ;;
  let polaris_api_host := getenv_or w "POLARIS_API_HOST" "localhost" in
  let polaris_api_port :=
    let resolved := get_api_port w 8181 in
    match getenv w "POLARIS_API_PORT" with
    | Some v => Some v
    | None => resolved
    end in
  do root_auth_token <-
    get_auth_token w client_id client_secret polaris_api_host polaris_api_port;
  LOGGER INFO (T ("Root Auth Token: " +++ Py.str root_auth_token)) ;;
  let polaris_catalog_mgmt_uri := mgmt_uri polaris_api_host polaris_api_port in
  (* Step 1: Create the Catalog *)
  create_catalog w root_auth_token polaris_catalog_mgmt_uri
    (catalog_name_default w) (default_base_location_default w) "FILE"
    allowed_locations_default ;;
  (* Step 2: Create Principal *)
  do principal <- create_principal w root_auth_token polaris_catalog_mgmt_uri
                    (principal_name_default w) "user";
  do pids <- lift (Py.unpack2 principal);
  let principal_client_id := fst pids in
  let principal_client_secret := snd pids in
  LOGGER INFO (T ("Principal Client ID: " +++ Py.str principal_client_id
                  +++ ", Principal Client Secret: " +++ Py.str principal_client_secret)) ;;
  (* Step 3: Create Principal Role *)
  create_principal_role w root_auth_token polaris_catalog_mgmt_uri
    (principal_role_default w) ;;
  (* Step 4: Assign Role to Principal *)
  assign_role_to_principal w root_auth_token polaris_catalog_mgmt_uri
    (principal_role_default w) (principal_name_default w) ;;
  (* Step 5: Create Catalog Role *)
  create_catalog_role w root_auth_token polaris_catalog_mgmt_uri
    (catalog_name_default w) (catalog_role_default w) ;;
  (* Step 6: Assign Catalog Role to Principal Role *)
  assign_catalog_role_to_principal_role w root_auth_token polaris_catalog_mgmt_uri
    (principal_role_default w) (catalog_role_default w) (catalog_name_default w) ;;
  (* Step 7: Assign Grants to Catalog Role on Catalog *)
  grants_to_catalog_role_on_catalog w root_auth_token polaris_catalog_mgmt_uri
    (catalog_role_default w) (catalog_name_default w) "CATALOG_MANAGE_CONTENT" "catalog" ;;
  ret None.

(** The block under [if __name__ == "__main__":]. *)
Definition main (w : world) : M unit :=
  LOGGER INFO (T "Running Polaris Demo Setup") ;;
  do r <- run_steps w;
  do pids <- lift (Py.unpack2 r);
  let principal_client_id := fst pids in
  let principal_client_secret := snd pids in
  LOGGER INFO (T "Generating Setup Verification Notebook Cells") ;;
  generate_setup_notebook_cells w principal_client_id principal_client_secret
    (catalog_name_default w).

(** The state in which the process starts: nothing issued, logged or printed
    yet, every list object empty, and the files that are already there. *)
Definition initial (ds : list string) (fs : list (string * string)) : state :=
  {| issued := []; logged := []; printed := []; dirs := ds; files := fs;
     heap := fun _ => [] |}.

(* ================================================================== *)
(** ** Notions used to state the properties *)

(** The key under which a line is sorted: what [extract_timestamp] returns. *)
Definition timestamp_of (line : string) : DT.datetime :=
  match DT.strptime (Str.take 26 line +++ "Z") with
  | Ok d => d
  | Raise _ => DT.min
  end.






(** A computation that leaves one component of the state as it is. *)
Definition keeps {X A} (proj : state -> X) (m : M A) : Prop :=
  forall st, proj (snd (m st)) = proj st.

(** A computation that can only return [a]. *)
Definition returns_only {A} (a : A) (m : M A) : Prop :=
  forall st v, fst (m st) = Ok v -> v = a.

(** Host and port of the API, as [run_steps] resolves them. *)
Definition api_host (w : world) : string := getenv_or w "POLARIS_API_HOST" "localhost".
Definition api_port (w : world) : option string :=
  match getenv w "POLARIS_API_PORT" with
  | Some v => Some v
  | None => get_api_port w 8181
  end.

(** Method and URL of the seven management requests, in the order of
    [run_steps]. *)
Definition management_calls (w : world) : list (http_method * string) :=
  let uri := mgmt_uri (api_host w) (api_port w) in
  [(POST, uri +++ "/catalogs");
   (POST, uri +++ "/principals");
   (POST, uri +++ "/principal-roles");
   (PUT, uri +++ "/principals/" +++ principal_name_default w +++ "/principal-roles");
   (POST, uri +++ "/catalogs/" +++ catalog_name_default w +++ "/catalog-roles");
   (PUT, uri +++ "/principal-roles/" +++ principal_role_default w
         +++ "/catalog-roles/" +++ catalog_name_default w);
   (PUT, uri +++ "/catalogs/" +++ catalog_name_default w +++ "/catalog-roles/"
         +++ catalog_role_default w +++ "/grants")].

Definition call_of (r : request) : http_method * string := (method r, url r).




(** *** Notions used by the further properties *)



(** Decimal text of fixed width, padded with zeros, as [%Y], [%m], ... and
    [%f] of [strftime] print it. *)
Definition digit_char (n : N) : ascii := ascii_of_N (48 + n).
Definition two_digits (n : N) : string :=
  String (digit_char (n / 10)) (String (digit_char (n mod 10)) "").
Definition four_digits (n : N) : string :=
  two_digits (n / 100) +++ two_digits (n mod 100).
Definition six_digits (n : N) : string :=
  two_digits (n / 10000) +++ two_digits (n / 100 mod 100) +++ two_digits (n mod 100).

(** A line that starts with the timestamp of [d], year to microsecond, as
    [strftime("%Y-%m-%dT%H:%M:%S.%f")] prints it, followed by [rest]. *)
Definition stamped (d : DT.datetime) (rest : string) : string :=
  four_digits (DT.year d) +++ "-" +++ two_digits (DT.month d) +++ "-"
  +++ two_digits (DT.day d) +++ "T" +++ two_digits (DT.hour d) +++ ":"
  +++ two_digits (DT.minute d) +++ ":" +++ two_digits (DT.second d) +++ "."
  +++ six_digits (DT.microsecond d) +++ rest.

(** The datetime passes the range checks of the constructor. *)
Definition valid (d : DT.datetime) : Prop :=
  DT.make (DT.year d) (DT.month d) (DT.day d) (DT.hour d) (DT.minute d)
    (DT.second d) (DT.microsecond d) = Ok d.

(** The requests a computation issues are, by method and URL, the first few
    of [calls], in order, after those issued before. *)
Definition sends_prefix_of {A} (calls : list (http_method * string)) (m : M A) : Prop :=
  forall st, exists n,
    map call_of (issued (snd (m st))) = map call_of (issued st) ++ firstn n calls.

(** A computation that only adds to the requests issued, and only requests
    that satisfy [P]. *)
Definition sends_only {A} (P : request -> Prop) (m : M A) : Prop :=
  forall st, exists l, issued (snd (m st)) = issued st ++ l /\ Forall P l.

(** A computation that, when it returns, has issued exactly [calls], by
    method and URL, after the requests issued before. *)
Definition returns_after {A} (calls : list (http_method * string)) (m : M A) : Prop :=
  forall st v, fst (m st) = Ok v ->
    map call_of (issued (snd (m st))) = map call_of (issued st) ++ calls.


(** What a step that only checks for 201 makes of the outcome of its
    request. *)
Definition step_result (o : outcome) : result unit :=
  match o with
  | Unreachable => Raise UnboundLocalError
  | Refused e => if is_RequestException e then Raise UnboundLocalError else Raise e
  | Responded r =>
      if ((400 <=? status_code r) && (status_code r <? 600))%Z then
        match body r with
        | Json _ => Ok tt
        | _ => Raise JSONDecodeError
        end
      else Ok tt
  end.

(** What [create_catalog] makes of the outcome of its request. *)
Definition catalog_result (o : outcome) : result unit :=
  match o with
  | Unreachable => Raise UnboundLocalError
  | Refused e => if is_RequestException e then Raise UnboundLocalError else Raise e
  | Responded r =>
      if ((400 <=? status_code r) && (status_code r <? 600))%Z
         || ((status_code r =? 201)%Z && has_content r) then
        match body r with
        | Json _ => Ok tt
        | _ => Raise JSONDecodeError
        end
      else Ok tt
  end.

(** What [get_auth_token] makes of the outcome of its request. *)
Definition token_result (o : outcome) : result pyval :=
  match o with
  | Unreachable => Raise ConnectionError
  | Refused e => Raise e
  | Responded r =>
      if (status_code r =? 200)%Z then
        match body r with
        | Json j => Py.getitem j "access_token"
        | _ => Raise JSONDecodeError
        end
      else Ok PNone
  end.

(** The body is JSON and holds the credentials [cid] and [secret]. *)
Definition credentials_in (c : content) (cid secret : pyval) : Prop :=
  exists j creds,
    c = Json j /\ Py.getitem j "credentials" = Ok creds
    /\ Py.getitem creds "clientId" = Ok cid
    /\ Py.getitem creds "clientSecret" = Ok secret.

(** *** The end-to-end scenario and two variations *)

Module Scenario.

Definition line : string :=
  "2024-01-01T00:00:00.000000000Z some root principal credentials: abc:xyz".

Definition polaris : container :=
  {| id := "polaris-1";
     logs := line +++ String Str.LF "";
     Ports := [("8181/tcp", Some [{| HostIp := "0.0.0.0"; HostPort := "32000" |}])] |}.

Definition principals_url : string :=
  "http://localhost:32000/api/management/v1/principals".

Definition token_body : content := Json (PDict [("access_token", PStr "t0k3n")]).

Definition credentials_body : content :=
  Json (PDict [("credentials",
                PDict [("clientId", PStr "pid"); ("clientSecret", PStr "psecret")])]).

Definition error_body : content :=
  Json (PDict [("error", PDict [("message", PStr "already exists")])]).

(** Every request is accepted. *)
Definition accept (h : list request) (r : request) : outcome :=
  match data r with
  | Form _ => Responded {| status_code := 200; body := token_body |}
  | Dumps _ =>
      if String.eqb (url r) principals_url
      then Responded {| status_code := 201; body := credentials_body |}
      else Responded {| status_code := 201; body := Empty |}
  end.

(** The principal exists already: its creation is answered 409. *)
Definition conflict (h : list request) (r : request) : outcome :=
  match data r with
  | Form _ => Responded {| status_code := 200; body := token_body |}
  | Dumps _ =>
      if String.eqb (url r) principals_url
      then Responded {| status_code := 409; body := error_body |}
      else Responded {| status_code := 201; body := Empty |}
  end.

(** The server stops answering once the token is issued. *)
Definition drop (h : list request) (r : request) : outcome :=
  match data r with
  | Form _ => Responded {| status_code := 200; body := token_body |}
  | Dumps _ => Unreachable
  end.

Definition world_of (srv : list request -> request -> outcome) : world :=
  {| environ := [];
     containers_list := fun _ => [polaris];
     server := srv;
     render := fun _ => Ok "{}";
     os_error := fun _ => None;
     short_write := 0 |}.

Definition start : state := initial [] [].

(** A log with an older and a newer announcement around an unrelated line. *)
Definition older : string :=
  "2024-01-01T10:00:00.000000000Z root principal credentials: old:one".
Definition unrelated : string :=
  "2024-01-03T09:30:00.000000000Z Polaris server started".
Definition newer : string :=
  "2024-01-02T08:15:30.123456789Z ROOT PRINCIPAL CREDENTIALS: new:two".

Definition restarted : container :=
  {| id := "polaris-2";
     logs := older +++ String Str.LF (unrelated +++ String Str.LF
               (newer +++ String Str.LF ""));
     Ports := [] |}.

Definition restarted_world : world :=
  {| environ := [];
     containers_list := fun _ => [restarted];
     server := accept;
     render := fun _ => Ok "{}";
     os_error := fun _ => None;
     short_write := 0 |}.

End Scenario.

(** *** Further cases *)

Module Cases.

(** No container is running. *)
Definition nowhere : world :=
  {| environ := [];
     containers_list := fun _ => [];
     server := Scenario.accept;
     render := fun _ => Ok "{}";
     os_error := fun _ => None;
     short_write := 0 |}.



(** The server is unreachable from the start. *)
Definition unreachable (h : list request) (r : request) : outcome := Unreachable.

(** The token endpoint refuses the credentials; the rest is accepted. *)
Definition unauthorized (h : list request) (r : request) : outcome :=
  match data r with
  | Form _ => Responded {| status_code := 401; body := Scenario.error_body |}
  | Dumps _ => Scenario.accept h r
  end.

(** Every management request is refused with a JSON body. *)
Definition refusing (h : list request) (r : request) : outcome :=
  match data r with
  | Form _ => Responded {| status_code := 200; body := Scenario.token_body |}
  | Dumps _ => Responded {| status_code := 403; body := Scenario.error_body |}
  end.

(** The template is missing. *)
Definition untemplated : world :=
  {| environ := [];
     containers_list := fun _ => [Scenario.polaris];
     server := Scenario.accept;
     render := fun _ => Raise TemplateNotFound;
     os_error := fun _ => None;
     short_write := 0 |}.

(** Two announcements with the same timestamp, then an older one. *)
Definition tie_first : string :=
  "2024-01-02T08:15:30.123456111Z root principal credentials: first:one".
Definition tie_second : string :=
  "2024-01-02T08:15:30.123456999Z root principal credentials: second:two".

Definition tied : container :=
  {| id := "polaris-4";
     logs := Scenario.older +++ String Str.LF
               (tie_first +++ String Str.LF (tie_second +++ String Str.LF ""));
     Ports := [] |}.

Definition tied_world : world :=
  {| environ := [];
     containers_list := fun _ => [tied];
     server := Scenario.accept;
     render := fun _ => Ok "{}";
     os_error := fun _ => None;
     short_write := 0 |}.



(** The library refuses a URL whose port is [None] and a header value that
    holds a carriage return or a line feed; the server accepts the rest. *)
Definition checking (h : list request) (r : request) : outcome :=
  if Str.contains ":None/" (url r) then Refused InvalidURL
  else if existsb (fun kv => Str.has_char Str.CR (snd kv) || Str.has_char Str.LF (snd kv))
            (headers r)
  then Refused InvalidHeader
  else Scenario.accept h r.

(** A container whose announcement holds a carriage return inside the
    client id. *)
Definition broken_line : string :=
  "2024-01-01T00:00:00.000000000Z root principal credentials: a"
  +++ String Str.CR "bc:xyz".

Definition broken : container :=
  {| id := "polaris-6";
     logs := broken_line +++ String Str.LF "";
     Ports := Ports Scenario.polaris |}.

Definition broken_world : world :=
  {| environ := [];
     containers_list := fun _ => [broken];
     server := checking;
     render := fun _ => Ok "{}";
     os_error := fun _ => None;
     short_write := 0 |}.

(** A container that announces credentials and publishes no port. *)
Definition unpublished : container :=
  {| id := "polaris-7";
     logs := Scenario.line +++ String Str.LF "";
     Ports := [("8181/tcp", None)] |}.

Definition unpublished_world : world :=
  {| environ := [];
     containers_list := fun _ => [unpublished];
     server := checking;
     render := fun _ => Ok "{}";
     os_error := fun _ => None;
     short_write := 0 |}.


(** A state in which the list object 1 holds one location. *)
Definition listed : state :=
  {| issued := []; logged := []; printed := []; dirs := []; files := [];
     heap := fun r => if Nat.eqb r 1 then ["s3://bucket/warehouse"] else [] |}.

(** A working directory in which [notebooks] is a file. *)
Definition blocked : state := initial [] [("notebooks", "not a directory")].

(** A working directory in which the path of the notebook is a directory. *)
Definition occupied : state :=
  initial ["notebooks"; "notebooks/polaris_setup_verify.ipynb"] [("README.md", "readme")].

(** Nothing may be made or written in the working directory. *)
Definition read_only : world :=
  {| environ := [];
     containers_list := fun _ => [Scenario.polaris];
     server := Scenario.accept;
     render := fun _ => Ok "{}";
     os_error := fun _ => Some PermissionError;
     short_write := 0 |}.


End Cases.

(* ================================================================== *)
(** ** Properties *)

(** *** Running a computation step by step *)

Lemma bind_ok {A B} (m : M A) (k : A -> M B) (st st' : state) (a : A) :
  m st = (Ok a, st') -> bind m k st = k a st'.
Proof. intros H. unfold bind. rewrite H. reflexivity. Qed.

Lemma bind_raise {A B} (m : M A) (k : A -> M B) (st st' : state) (e : exn) :
  m st = (Raise e, st') -> bind m k st = (Raise e, st').
Proof. intros H. unfold bind. rewrite H. reflexivity. Qed.

Lemma bind_LOGGER {A} (l : level) (msg : text) (k : unit -> M A) (st : state) :
  bind (LOGGER l msg) k st = k tt (snd (LOGGER l msg st)).
Proof. reflexivity. Qed.

(** *** Token exchange *)

Lemma http_sent (w : world) (r : request) (st : state) :
  issued (snd (http w r st)) = issued st ++ [r].
Proof.
  unfold http. destruct (server w (issued st) r); reflexivity.
Qed.

Lemma get_auth_token_sent (w : world) (cid cs host : string) (port : option string)
    (st : state) :
  issued (snd (get_auth_token w cid cs host port st))
  = issued st ++ [token_request cid cs host port].
Proof.
  unfold get_auth_token, bind, http, lift, ret.
  destruct (server w (issued st) _) as [resp| |e]; simpl; [|reflexivity|reflexivity].
  destruct (status_code resp =? 200)%Z; [|reflexivity].
  destruct (json resp); reflexivity.
Qed.

Lemma get_auth_token_refused (w : world) (cid cs host : string) (port : option string)
    (st : state) (e : exn) :
  server w (issued st) (token_request cid cs host port) = Refused e ->
  fst (get_auth_token w cid cs host port st) = Raise e.
Proof.
  intros Hsrv. unfold get_auth_token, bind, http, lift, ret. rewrite Hsrv. reflexivity.
Qed.

(** C3. Whatever the credentials, the request that [get_auth_token] builds
    and hands to [requests.post] (one call, recorded in [issued]) has an
    [Authorization] header that is ["Bearer "] followed by the client id,
    one colon and the client secret as they are, and the form fields
    [grant_type=client_credentials], the client id, the client secret and
    [scope=PRINCIPAL_ROLE:ALL]. Whether that request goes out is for the
    library to decide: when it refuses it (a credential that holds a line
    feed, a port that is not a number), [get_auth_token] raises what the
    library raised. *)
Theorem get_auth_token_request (w : world) (client_id client_secret host : string)
    (port : option string) (st : state) :
  let r := token_request client_id client_secret host port in
  issued (snd (get_auth_token w client_id client_secret host port st)) = issued st ++ [r]
  /\ Py.lookup "Authorization" (headers r)
     = Some ("Bearer " +++ client_id +++ ":" +++ client_secret)
  /\ data r = Form [("grant_type", "client_credentials");
                    ("client_id", client_id);
                    ("client_secret", client_secret);
                    ("scope", "PRINCIPAL_ROLE:ALL")]
  /\ match server w (issued st) r with
     | Refused e =>
         fst (get_auth_token w client_id client_secret host port st) = Raise e
     | _ => True
     end.
Proof.
  cbv zeta. split; [apply get_auth_token_sent|].
  split; [reflexivity|]. split; [reflexivity|].
  destruct (server w (issued st) _) as [resp| |e] eqn:Hsrv; trivial.
  now apply get_auth_token_refused.
Qed.

(** C8. When the token endpoint answers, [get_auth_token] returns the
    [access_token] field of the JSON body if the status is 200 and [None]
    on any other status; it raises nothing and issues one request only. *)
Theorem get_auth_token_result (w : world) (client_id client_secret host : string)
    (port : option string) (st : state) (resp : response) (j tok : pyval) :
  server w (issued st) (token_request client_id client_secret host port) = Responded resp ->
  (status_code resp = 200%Z ->
   body resp = Json j /\ Py.getitem j "access_token" = Ok tok) ->
  fst (get_auth_token w client_id client_secret host port st)
  = Ok (if (status_code resp =? 200)%Z then tok else PNone)
  /\ issued (snd (get_auth_token w client_id client_secret host port st))
     = issued st ++ [token_request client_id client_secret host port].
Proof.
  intros Hsrv Hbody. split; [|apply get_auth_token_sent].
  unfold get_auth_token, bind, http, lift, ret. rewrite Hsrv. simpl.
  destruct (Z.eqb_spec (status_code resp) 200) as [E|E]; [|reflexivity].
  destruct (Hbody E) as [Hj Htok]. unfold json. rewrite Hj. simpl.
  rewrite Htok. reflexivity.
Qed.

Lemma get_auth_token_result_witness :
  fst (get_auth_token (Scenario.world_of Scenario.accept) "abc" "xyz" "localhost"
         (Some "32000") Scenario.start)
  = Ok (PStr "t0k3n")
  /\ issued (snd (get_auth_token (Scenario.world_of Scenario.accept) "abc" "xyz"
                  "localhost" (Some "32000") Scenario.start))
     = [token_request "abc" "xyz" "localhost" (Some "32000")].
Proof.
  apply (get_auth_token_result (Scenario.world_of Scenario.accept) "abc" "xyz"
           "localhost" (Some "32000") Scenario.start
           {| status_code := 200; body := Scenario.token_body |}
           (PDict [("access_token", PStr "t0k3n")]) (PStr "t0k3n")).
  - reflexivity.
  - intros _. split; reflexivity.
Defined.

(** *** Timestamps *)

Lemma make_raises (y m d hh mi ss f : N) (e : exn) :
  DT.make y m d hh mi ss f = Raise e -> e = ValueError.
Proof.
  unfold DT.make. destruct (_ && _)%bool; congruence.
Qed.

Lemma strptime_raises (s : string) (e : exn) :
  DT.strptime s = Raise e -> e = ValueError.
Proof.
  unfold DT.strptime.
  destruct (DT.format_regex s) as [|[[[[[[[y m] d] hh] mi] ss] f] rest] tl].
  - congruence.
  - destruct rest; [apply make_raises | congruence].
Qed.

Lemma make_not_before_min (y m d hh mi ss f : N) (x : DT.datetime) :
  DT.make y m d hh mi ss f = Ok x -> DT.ltb x DT.min = false.
Proof.
  unfold DT.make.
  destruct (_ && _)%bool eqn:E; [|discriminate].
  intros [= <-].
  repeat (apply andb_prop in E; destruct E as [E ?]).
  repeat match goal with H : (_ <=? _)%N = true |- _ => apply N.leb_le in H end.
  unfold DT.ltb, DT.compare. simpl.
  destruct (N.compare_spec y 1); [subst| lia |reflexivity].
  destruct (N.compare_spec m 1); [subst| lia |reflexivity].
  destruct (N.compare_spec d 1); [subst| lia |reflexivity].
  destruct (N.compare_spec hh 0); [subst| lia |reflexivity].
  destruct (N.compare_spec mi 0); [subst| lia |reflexivity].
  destruct (N.compare_spec ss 0); [subst| lia |reflexivity].
  destruct (N.compare_spec f 0); [reflexivity| lia |reflexivity].
Qed.

Lemma timestamp_not_before_min (line : string) :
  DT.ltb (timestamp_of line) DT.min = false.
Proof.
  unfold timestamp_of, DT.strptime.
  destruct (DT.format_regex _) as [|[[[[[[[y m] d] hh] mi] ss] f] rest] tl];
    [reflexivity|].
  destruct rest; [|reflexivity].
  destruct (DT.make y m d hh mi ss f) eqn:E; [|reflexivity].
  eapply make_not_before_min; eassumption.
Qed.

Lemma extract_timestamp_value (line : string) (st : state) :
  exists st', extract_timestamp line st = (Ok (timestamp_of line), st')
              /\ issued st' = issued st /\ files st' = files st /\ dirs st' = dirs st
              /\ heap st' = heap st.
Proof.
  unfold extract_timestamp, timestamp_of.
  destruct (DT.strptime _) as [d|e] eqn:E.
  - exists st. repeat split; reflexivity.
  - rewrite (strptime_raises _ _ E). eexists. split; [reflexivity|].
    repeat split; reflexivity.
Qed.

(** C5. For every line, [extract_timestamp] returns: the parsed timestamp
    when the first 26 characters followed by [Z] parse, and [datetime.min]
    otherwise, which no timestamp it returns sorts before. *)
Theorem extract_timestamp_never_raises (line : string) (st : state) :
  exists st',
    extract_timestamp line st
    = (Ok (match DT.strptime (Str.take 26 line +++ "Z") with
           | Ok d => d
           | Raise _ => DT.min
           end), st')
    /\ forall other st0,
         exists d st1, extract_timestamp other st0 = (Ok d, st1)
                       /\ DT.ltb d DT.min = false.
Proof.
  destruct (extract_timestamp_value line st) as (st' & H & _).
  exists st'. split; [exact H|].
  intros other st0.
  destruct (extract_timestamp_value other st0) as (st1 & H1 & _).
  exists (timestamp_of other), st1. split; [exact H1|].
  apply timestamp_not_before_min.
Qed.

(** *** Strings *)

Lemma lower_app (a b : string) : Str.lower (a +++ b) = Str.lower a +++ Str.lower b.
Proof. induction a; simpl; congruence. Qed.

Lemma has_char_app (c : ascii) (a b : string) :
  Str.has_char c (a +++ b) = Str.has_char c a || Str.has_char c b.
Proof.
  induction a; simpl; [reflexivity|]. rewrite IHa. apply orb_assoc.
Qed.


Lemma lstrip_app_stop (c : ascii) (a r : string) :
  Str.isspace c = false ->
  Str.lstrip (a +++ String c r) = Str.lstrip a +++ String c r.
Proof.
  intros Hc. induction a as [|x a IH]; simpl.
  - rewrite Hc. reflexivity.
  - destruct (Str.isspace x); [exact IH | reflexivity].
Qed.

Lemma lstrip_spaces_app (ws x : string) :
  Str.lstrip ws = "" -> Str.lstrip (ws +++ x) = Str.lstrip x.
Proof.
  induction ws as [|c ws IH]; simpl; [reflexivity|].
  destruct (Str.isspace c); [exact IH | discriminate].
Qed.

Lemma lstrip_stop_inv (s r : string) (c : ascii) :
  Str.lstrip s = String c r ->
  exists ws, s = ws +++ String c r /\ Str.lstrip ws = "".
Proof.
  induction s as [|x s IH]; simpl; [discriminate|].
  destruct (Str.isspace x) eqn:E.
  - intros H. destruct (IH H) as (ws & -> & Hws).
    exists (String x ws). simpl. rewrite E. auto.
  - intros [= -> ->]. exists "". auto.
Qed.

Lemma rstrip_app_stop (c : ascii) (a r : string) :
  Str.isspace c = false ->
  Str.rstrip (a +++ String c r) = a +++ String c (Str.rstrip r).
Proof.
  intros Hc. induction a as [|x a IH]; simpl.
  - destruct (Str.rstrip r); [rewrite Hc|]; reflexivity.
  - rewrite IH. destruct a; reflexivity.
Qed.

Lemma has_char_lstrip (c : ascii) (s : string) :
  Str.has_char c (Str.lstrip s) = true -> Str.has_char c s = true.
Proof.
  induction s as [|x s IH]; simpl; [auto|].
  destruct (Str.isspace x); simpl; [|auto].
  intros H. rewrite (IH H). apply orb_true_r.
Qed.

Lemma has_char_rstrip (c : ascii) (s : string) :
  Str.has_char c (Str.rstrip s) = true -> Str.has_char c s = true.
Proof.
  induction s as [|x s IH]; simpl; [auto|].
  destruct (Str.rstrip s) as [|y t].
  - destruct (Str.isspace x); simpl; [discriminate|].
    rewrite orb_false_r. intros ->. reflexivity.
  - simpl. destruct (Ascii.eqb x c); [reflexivity|]. exact IH.
Qed.

Lemma has_char_strip (c : ascii) (s : string) :
  Str.has_char c (Str.strip s) = true -> Str.has_char c s = true.
Proof.
  intros H. apply has_char_lstrip, has_char_rstrip, H.
Qed.

Lemma break_at_app (c : ascii) (a b : string) :
  Str.has_char c a = false -> Str.break_at c (a +++ String c b) = Some (a, b).
Proof.
  induction a as [|x a IH]; simpl.
  - rewrite Ascii.eqb_refl. reflexivity.
  - intros H. apply orb_false_elim in H as [Hx Ha].
    rewrite Hx, (IH Ha). reflexivity.
Qed.



(** *** The credentials regex *)

Lemma group1_line (s : string) : Str.has_char Str.LF s = false -> group1 s = s.
Proof.
  induction s as [|x s IH]; simpl; [reflexivity|].
  intros H. apply orb_false_elim in H as [Hx Hs].
  rewrite Hx, (IH Hs). reflexivity.
Qed.


Lemma literal_icase_complete (q p x : string) :
  Str.lower p = Str.lower q -> literal_icase q (p +++ x) = Some x.
Proof.
  revert p. induction q as [|a q IH]; intros [|b p]; simpl; try discriminate.
  - reflexivity.
  - intros [= Hc Hr]. rewrite Hc, Ascii.eqb_refl. apply IH, Hr.
Qed.

Lemma literal_icase_sound (q s r : string) :
  literal_icase q s = Some r -> exists p, s = p +++ r /\ Str.lower p = Str.lower q.
Proof.
  revert s. induction q as [|a q IH]; intros s; simpl.
  - intros [= ->]. exists "". auto.
  - destruct s as [|b s]; [discriminate|].
    destruct (Ascii.eqb_spec (Str.lower_char a) (Str.lower_char b)) as [E|E];
      [|discriminate].
    intros H. destruct (IH _ H) as (p & -> & Hp).
    exists (String b p). simpl. rewrite Hp, E. auto.
Qed.

Lemma phrase_lower : Str.lower phrase = phrase.
Proof. reflexivity. Qed.

Lemma match_here_complete (p ws rest : string) :
  Str.lower p = phrase -> Str.lstrip ws = "" ->
  match_here (p +++ ws +++ String Str.colon rest) = Some (group1 rest).
Proof.
  intros Hp Hws. unfold match_here.
  rewrite literal_icase_complete by (rewrite phrase_lower; exact Hp).
  rewrite lstrip_spaces_app by exact Hws.
  reflexivity.
Qed.

Lemma match_here_sound (s g : string) :
  match_here s = Some g ->
  exists p ws rest, s = p +++ ws +++ String Str.colon rest
                    /\ Str.lower p = phrase /\ Str.lstrip ws = "" /\ g = group1 rest.
Proof.
  unfold match_here.
  destruct (literal_icase phrase s) as [r|] eqn:E; [|discriminate].
  destruct (Str.lstrip r) as [|c r'] eqn:L; [discriminate|].
  destruct (Ascii.eqb_spec c Str.colon) as [->|]; [|discriminate].
  intros [= <-].
  destruct (literal_icase_sound _ _ _ E) as (p & -> & Hp).
  destruct (lstrip_stop_inv _ _ _ L) as (ws & -> & Hws).
  exists p, ws, r'. rewrite phrase_lower in Hp. auto.
Qed.

Lemma re_search_sound (s g : string) :
  re_search s = Some g ->
  exists pre p ws rest, s = pre +++ p +++ ws +++ String Str.colon rest
                        /\ Str.lower p = phrase /\ Str.lstrip ws = ""
                        /\ g = group1 rest.
Proof.
  induction s as [|x s IH].
  - intros H. vm_compute in H. discriminate.
  - simpl. destruct (match_here (String x s)) eqn:E.
    + intros [= <-]. destruct (match_here_sound _ _ E) as (p & ws & rest & H).
      exists "", p, ws, rest. exact H.
    + intros H. destruct (IH H) as (pre & p & ws & rest & -> & H').
      exists (String x pre), p, ws, rest. auto.
Qed.

Lemma re_search_here (s g : string) :
  match_here s = Some g -> re_search s = Some g.
Proof.
  intros H. destruct s as [|a s].
  - vm_compute in H. discriminate.
  - change (re_search (String a s))
      with (match match_here (String a s) with
            | Some g' => Some g'
            | None => re_search s
            end).
    rewrite H. reflexivity.
Qed.



(** *** Pair extraction *)

Lemma contains_here (p s : string) : Str.contains p (p +++ s) = true.
Proof.
  assert (H : Str.startswith p (p +++ s) = true).
  { induction p as [|a p IH]; simpl; [reflexivity|].
    rewrite Ascii.eqb_refl. exact IH. }
  destruct (p +++ s); simpl; rewrite H; reflexivity.
Qed.

(** What the extraction returns for a line on which the regex matches at
    the very start. *)
Lemma credentials_of_announcement (rest : string) :
  credentials_of_line (phrase +++ String Str.colon rest)
  = Some (Str.split1 Str.colon (Str.strip (group1 rest))).
Proof.
  unfold credentials_of_line.
  rewrite lower_app, phrase_lower, contains_here.
  rewrite (re_search_here _ (group1 rest)); [reflexivity|].
  apply (match_here_complete phrase "" rest); reflexivity.
Qed.

(** C4, as the script has it. For a line
    [root principal credentials: <A>:<B>] with no colon in [A], the
    extraction returns the pair of [A] without its leading whitespace and
    [B] without its trailing whitespace: the text [A:B] is stripped as a
    whole, so whitespace next to the separating colon stays. *)
Theorem pair_of_exact_line (A B : string) :
  Str.has_char Str.colon A = false ->
  Str.has_char Str.LF A = false ->
  Str.has_char Str.LF B = false ->
  credentials_of_line ("root principal credentials: " +++ A +++ ":" +++ B)
  = Some [Str.lstrip A; Str.rstrip B].
Proof.
  intros HA HlA HlB.
  change ("root principal credentials: " +++ A +++ ":" +++ B)
    with (phrase +++ String Str.colon (String " " (A +++ String Str.colon B))).
  rewrite credentials_of_announcement.
  rewrite group1_line
    by (simpl; rewrite has_char_app; simpl; rewrite HlA, HlB; reflexivity).
  unfold Str.strip.
  change (Str.lstrip (String " " (A +++ String Str.colon B)))
    with (Str.lstrip (A +++ String Str.colon B)).
  rewrite lstrip_app_stop by reflexivity.
  rewrite rstrip_app_stop by reflexivity.
  unfold Str.split1. rewrite break_at_app; [reflexivity|].
  destruct (Str.has_char Str.colon (Str.lstrip A)) eqn:E; [|reflexivity].
  apply has_char_lstrip in E. congruence.
Qed.

Lemma pair_of_exact_line_witness :
  credentials_of_line ("root principal credentials: " +++ " abc" +++ ":" +++ "xyz ")
  = Some ["abc"; "xyz"].
Proof.
  apply (pair_of_exact_line " abc" "xyz "); reflexivity.
Defined.

(** C4, as stated, fails: with [A = "abc "] and [B = " xyz"] the line is
    of the stated form, and the components returned still carry the
    whitespace next to the colon. *)
Lemma pair_keeps_inner_whitespace :
  credentials_of_line ("root principal credentials: " +++ "abc " +++ ":" +++ " xyz")
  = Some ["abc "; " xyz"]
  /\ credentials_of_line ("root principal credentials: " +++ "abc " +++ ":" +++ " xyz")
     <> Some [Str.strip "abc "; Str.strip " xyz"].
Proof.
  split; [reflexivity|]. vm_compute. discriminate.
Qed.







(** *** Order of timestamps *)








(** *** [sorted(..., reverse=True)] *)

Section Sorting.

Context {A : Type}.





End Sorting.








(** On that log the newer announcement is returned first, although it
    comes last among the selected lines and is written in capitals. *)
Example restarted_log_order :
  fst (get_root_cred_log_lines Scenario.restarted_world Scenario.start)
  = Ok (Some [Scenario.newer; Scenario.older]).
Proof. vm_compute. reflexivity. Qed.

(** *** What a computation leaves untouched *)

Lemma keeps_bind {X A B} (proj : state -> X) (m : M A) (k : A -> M B) :
  keeps proj m -> (forall a, keeps proj (k a)) -> keeps proj (bind m k).
Proof.
  intros Hm Hk st. unfold bind. specialize (Hm st).
  destruct (m st) as [[a|e] st1]; simpl in *; [|exact Hm].
  rewrite Hk. exact Hm.
Qed.

Lemma keeps_try_request {X A} (proj : state -> X) (call : M response)
    (body : response -> M A) (handler : option response -> exn -> M A) :
  keeps proj call -> (forall r, keeps proj (body r)) ->
  (forall o e, keeps proj (handler o e)) ->
  keeps proj (try_request call body handler).
Proof.
  intros Hc Hb Hh st. unfold try_request. specialize (Hc st).
  destruct (call st) as [[r|e] st1]; simpl in *.
  - specialize (Hb r st1).
    destruct (body r st1) as [[a|e] st2]; simpl in *; [congruence|].
    destruct (is_RequestException e); simpl; [rewrite Hh|]; congruence.
  - destruct (is_RequestException e); simpl; [rewrite Hh|]; congruence.
Qed.

Lemma keeps_mapM {X A B} (proj : state -> X) (f : A -> M B) (l : list A) :
  (forall x, keeps proj (f x)) -> keeps proj (mapM f l).
Proof.
  intros Hf. induction l as [|x l IH]; simpl; [intro; reflexivity|].
  apply keeps_bind; [apply Hf|]. intros y.
  apply keeps_bind; [exact IH|]. intros ys st. reflexivity.
Qed.

(** A primitive that does not write the component at hand. *)
Ltac primitive :=
  let st := fresh "st" in
  intro st;
  unfold http, LOGGER, print, append, deref, local, lift, ret, raise,
    mkdir_exist_ok, write_file;
  repeat match goal with
         | |- context [match ?x with _ => _ end] => destruct x
         end;
  reflexivity.

Ltac frame :=
  repeat match goal with
         | |- forall _, _ => intro
         | |- keeps _ (bind _ _) => apply keeps_bind
         | |- keeps _ (try_request _ _ _) => apply keeps_try_request
         | |- keeps _ (mapM _ _) => apply keeps_mapM
         | |- keeps _ (if ?b then _ else _) => destruct b
         | |- keeps _ (match ?x with _ => _ end) => destruct x
         | |- keeps _ _ => solve [primitive]
         | |- keeps _ _ => progress cbv zeta
         end.

Lemma print_error_keeps {X} (proj : state -> X) (o : option response) (e : exn) :
  (forall l msg, keeps proj (LOGGER l msg)) -> (forall msg, keeps proj (print msg)) ->
  keeps proj (print_error o e).
Proof.
  intros HL HP. unfold print_error. frame; auto.
Qed.

Lemma check_created_keeps {X} (proj : state -> X) (msg : string) (r : response) :
  (forall l m, keeps proj (LOGGER l m)) -> keeps proj (check_created msg r).
Proof.
  intros HL. unfold check_created. frame; auto.
Qed.

(** The effect of a step on the requests issued: one more request, whatever
    becomes of it. *)
Lemma try_request_sent {A} (w : world) (req : request) (body : response -> M A)
    (handler : option response -> exn -> M A) (st : state) :
  (forall r, keeps issued (body r)) -> (forall o e, keeps issued (handler o e)) ->
  issued (snd (try_request (http w req) body handler st)) = issued st ++ [req].
Proof.
  intros Hb Hh. unfold try_request.
  pose proof (http_sent w req st) as Hs.
  destruct (http w req st) as [[r|e] st1]; simpl in *.
  - specialize (Hb r st1).
    destruct (body r st1) as [[a|e] st2]; simpl in *; [congruence|].
    destruct (is_RequestException e); simpl; [rewrite Hh|]; congruence.
  - destruct (is_RequestException e); simpl; [rewrite Hh|]; congruence.
Qed.

Lemma LOGGER_keeps_sent (l : level) (msg : text) : keeps issued (LOGGER l msg).
Proof. primitive. Qed.
Lemma print_keeps_sent (msg : text) : keeps issued (print msg).
Proof. primitive. Qed.
Lemma LOGGER_keeps_heap (l : level) (msg : text) : keeps heap (LOGGER l msg).
Proof. primitive. Qed.
Lemma print_keeps_heap (msg : text) : keeps heap (print msg).
Proof. primitive. Qed.
Lemma LOGGER_keeps_files (l : level) (msg : text) : keeps files (LOGGER l msg).
Proof. primitive. Qed.
Lemma print_keeps_files (msg : text) : keeps files (print msg).
Proof. primitive. Qed.
Lemma LOGGER_keeps_dirs (l : level) (msg : text) : keeps dirs (LOGGER l msg).
Proof. primitive. Qed.
Lemma print_keeps_dirs (msg : text) : keeps dirs (print msg).
Proof. primitive. Qed.

Create HintDb frame.
#[local] Hint Resolve LOGGER_keeps_sent print_keeps_sent LOGGER_keeps_heap
  print_keeps_heap LOGGER_keeps_files print_keeps_files LOGGER_keeps_dirs
  print_keeps_dirs : frame.
#[local] Hint Resolve print_error_keeps check_created_keeps : frame.

(** *** The shared default list of [create_catalog] *)

(** The list that a call of [create_catalog] puts in its payload. *)
Lemma create_catalog_effect (w : world) (tok : pyval) (uri name loc sty : string)
    (l : ref) (st : state) :
  let items := match heap st l with [] => [loc] | x :: xs => x :: xs end in
  let st' := snd (create_catalog w tok uri name loc sty l st) in
  heap st' l = items
  /\ (forall l', l' <> l -> heap st' l' = heap st l')
  /\ issued st' = issued st ++ [{| method := POST;
                               url := uri +++ "/catalogs";
                               headers := build_headers tok;
                               data := Dumps (catalog_payload name loc sty items) |}].
Proof.
  cbv zeta. unfold create_catalog.
  change (bind (deref l) ?k st) with (k (heap st l) st). cbv beta.
  set (st1 := match heap st l with
              | [] => snd (append l loc st)
              | _ :: _ => st
              end).
  set (items := match heap st l with [] => [loc] | x :: xs => x :: xs end).
  assert (H1 : heap st1 l = items /\ (forall l', l' <> l -> heap st1 l' = heap st l')
               /\ issued st1 = issued st).
  { subst st1 items. destruct (heap st l) eqn:E; simpl.
    - rewrite Nat.eqb_refl, E. repeat split; try reflexivity.
      intros l' Hl'. apply Nat.eqb_neq in Hl'. rewrite Hl'. reflexivity.
    - rewrite E. repeat split; reflexivity. }
  destruct H1 as (Hitems & Hother & Hsent).
  match goal with
  | |- context [bind ?m ?k st] =>
      replace (bind m k st) with (k tt st1)
        by (subst st1; unfold bind; destruct (heap st l); reflexivity)
  end.
  cbv beta. change (bind (deref l) ?k st1) with (k (heap st1 l) st1). cbv beta.
  rewrite Hitems, bind_LOGGER.
  set (st2 := snd (LOGGER DEBUG (TJ (catalog_payload name loc sty items)) st1)).
  assert (K : forall X (proj : state -> X),
             (forall lv m, keeps proj (LOGGER lv m)) ->
             (forall m, keeps proj (print m)) ->
             forall r, keeps proj
               (lift (raise_for_status r);;
                if (status_code r =? 201)%Z
                then LOGGER INFO (T "Catalog Created Successfully");;
                     if has_content r
                     then do j <- lift (json r); LOGGER DEBUG (T "Response:")
                     else ret tt
                else ret tt)).
  { intros X proj HL HP r. frame; auto. }
  assert (Hh : keeps heap (http w {| method := POST;
                                     url := uri +++ "/catalogs";
                                     headers := build_headers tok;
                                     data := Dumps (catalog_payload name loc sty items) |}))
    by primitive.
  repeat split.
  - rewrite (keeps_try_request heap); auto with frame.
  - intros l' Hl'. rewrite (keeps_try_request heap); auto with frame.
    apply Hother, Hl'.
  - rewrite try_request_sent; auto with frame.
    subst st2. simpl. rewrite Hsent. reflexivity.
Qed.

(** C10. A call of [create_catalog] on an empty list object [l] (the one
    of the default argument, or the caller's) appends the base location to
    that object before the payload is built: the object then holds the
    location and the payload of the request lists it. The object keeps it: any later
    call on the same object, whatever its own base location, lists the
    location appended first and leaves the object as it is. *)
Theorem create_catalog_appends_to_shared_list (w : world) (tok : pyval)
    (uri name loc sty : string) (l : ref) (st : state) :
  heap st l = [] ->
  heap (snd (create_catalog w tok uri name loc sty l st)) l = [loc]
  /\ (exists r, issued (snd (create_catalog w tok uri name loc sty l st)) = issued st ++ [r]
                /\ data r = Dumps (catalog_payload name loc sty [loc]))
  /\ forall w' tok' uri' name' loc' sty' st',
       heap st' l = [loc] ->
       heap (snd (create_catalog w' tok' uri' name' loc' sty' l st')) l = [loc]
       /\ exists r', issued (snd (create_catalog w' tok' uri' name' loc' sty' l st'))
                     = issued st' ++ [r']
                     /\ data r' = Dumps (catalog_payload name' loc' sty' [loc]).
Proof.
  intros Hempty.
  destruct (create_catalog_effect w tok uri name loc sty l st) as (H1 & _ & H2).
  rewrite Hempty in H1, H2. split; [exact H1|]. split.
  - eexists. split; [exact H2 | reflexivity].
  - intros w' tok' uri' name' loc' sty' st' Hlater.
    destruct (create_catalog_effect w' tok' uri' name' loc' sty' l st') as (K1 & _ & K2).
    rewrite Hlater in K1, K2. split; [exact K1|].
    eexists. split; [exact K2 | reflexivity].
Qed.

Lemma create_catalog_appends_to_shared_list_witness :
  heap (snd (create_catalog (Scenario.world_of Scenario.accept) (PStr "t0k3n")
               "http://localhost:32000/api/management/v1" "my_catalog"
               "file:///data/polaris" "FILE" allowed_locations_default Scenario.start))
    allowed_locations_default
  = ["file:///data/polaris"].
Proof.
  refine (proj1 (create_catalog_appends_to_shared_list
                   (Scenario.world_of Scenario.accept)
                   (PStr "t0k3n") "http://localhost:32000/api/management/v1" "my_catalog"
                   "file:///data/polaris" "FILE" allowed_locations_default
                   Scenario.start _)).
  reflexivity.
Defined.

(** Two calls that leave [allowed_locations] to its default, for two
    catalogs at different locations: the second payload lists the location
    of the first catalog. *)
Example second_default_call_lists_first_location :
  map data
    (issued (snd (create_catalog (Scenario.world_of Scenario.accept) PNone "http://h/v1"
                  "second" "file:///data/second" "FILE" allowed_locations_default
                  (snd (create_catalog (Scenario.world_of Scenario.accept) PNone
                          "http://h/v1" "first" "file:///data/first" "FILE"
                          allowed_locations_default Scenario.start)))))
  = [Dumps (catalog_payload "first" "file:///data/first" "FILE" ["file:///data/first"]);
     Dumps (catalog_payload "second" "file:///data/second" "FILE" ["file:///data/first"])].
Proof. vm_compute. reflexivity. Qed.

(** *** The entry point *)

Lemma returns_only_bind {A B} (b : B) (m : M A) (k : A -> M B) :
  (forall a, returns_only b (k a)) -> returns_only b (bind m k).
Proof.
  intros Hk st v. unfold bind.
  destruct (m st) as [[a|e] st1]; [apply Hk | discriminate].
Qed.

Lemma run_steps_returns_None (w : world) : returns_only None (run_steps w).
Proof.
  unfold run_steps.
  repeat (apply returns_only_bind; intro).
  intros st v [= <-]. reflexivity.
Qed.

Lemma extract_timestamp_keeps {X} (proj : state -> X) (line : string) :
  (forall l m, keeps proj (LOGGER l m)) -> keeps proj (extract_timestamp line).
Proof.
  intros HL. unfold extract_timestamp. frame; auto.
Qed.

Lemma run_steps_keeps_files (w : world) :
  keeps files (run_steps w) /\ keeps dirs (run_steps w).
Proof.
  split;
    unfold run_steps, extract_root_principal_credentials, get_root_cred_log_lines,
      sorted_reverse, get_auth_token, create_catalog, create_principal,
      create_principal_role, assign_role_to_principal, create_catalog_role,
      assign_catalog_role_to_principal_role, grants_to_catalog_role_on_catalog;
    frame; auto using extract_timestamp_keeps with frame.
Qed.

(** The entry point always ends in an exception and never touches the
    files: [run_steps] returns [None], which the unpacking rejects. *)
Lemma main_raises (w : world) (st : state) :
  exists e, fst (main w st) = Raise e
            /\ files (snd (main w st)) = files st
            /\ dirs (snd (main w st)) = dirs st
            /\ (forall v st', run_steps w (snd (LOGGER INFO (T "Running Polaris Demo Setup") st))
                              = (Ok v, st') -> e = TypeError).
Proof.
  unfold main. rewrite bind_LOGGER.
  set (st0 := snd (LOGGER INFO (T "Running Polaris Demo Setup") st)).
  destruct (run_steps_keeps_files w) as [Hf Hd].
  specialize (Hf st0). specialize (Hd st0).
  pose proof (run_steps_returns_None w st0) as Hn.
  destruct (run_steps w st0) as [[v|e] st1] eqn:R; simpl in *.
  - pose proof (Hn v eq_refl) as ->. exists TypeError.
    rewrite (bind_ok _ _ _ _ _ R). simpl. repeat split; auto.
  - exists e. rewrite (bind_raise _ _ _ _ _ R). simpl. repeat split; auto.
    intros v st' [=].
Qed.

(** The emitter on its own: given the three values it renders the
    template, creates [notebooks] and writes the one file. *)
Example emitter_writes_notebook :
  let out := generate_setup_notebook_cells (Scenario.world_of Scenario.accept)
               (PStr "pid") (PStr "psecret") "my_catalog" Scenario.start in
  fst out = Ok tt
  /\ dirs (snd out) = ["notebooks"]
  /\ files (snd out) = [("notebooks/polaris_setup_verify.ipynb", "{}")].
Proof. vm_compute. repeat split; reflexivity. Qed.

(** C1 does not hold of the script. In the end-to-end scenario, with a
    server that accepts every request, the token request and the seven
    management requests are issued, and the entry point then ends in a
    [TypeError] without writing any file: [run_steps] returns [None] where
    the entry point unpacks a pair. No run writes the notebook: for every
    world the entry point ends in an exception with the files as they were. *)
Theorem entry_point_writes_no_notebook :
  fst (main (Scenario.world_of Scenario.accept) Scenario.start) = Raise TypeError
  /\ List.length (issued (snd (main (Scenario.world_of Scenario.accept) Scenario.start))) = 8
  /\ files (snd (main (Scenario.world_of Scenario.accept) Scenario.start)) = []
  /\ dirs (snd (main (Scenario.world_of Scenario.accept) Scenario.start)) = []
  /\ forall w st, exists e,
       fst (main w st) = Raise e
       /\ files (snd (main w st)) = files st
       /\ dirs (snd (main w st)) = dirs st.
Proof.
  split; [vm_compute; reflexivity|].
  split; [vm_compute; reflexivity|].
  split; [vm_compute; reflexivity|].
  split; [vm_compute; reflexivity|].
  intros w st. destruct (main_raises w st) as (e & H1 & H2 & H3 & _).
  exists e. auto.
Qed.

(** The step that creates the principal returns normally when the server
    answers 409 with a JSON body: it prints the body and the error. *)
Example create_principal_conflict_returns :
  let out := create_principal (Scenario.world_of Scenario.conflict) (PStr "t0k3n")
               "http://localhost:32000/api/management/v1" "polarisuser" "user"
               Scenario.start in
  fst out = Ok None
  /\ printed (snd out)
     = [T "{'error': {'message': 'already exists'}}"; TE "An error occurred: " HTTPError].
Proof. vm_compute. split; reflexivity. Qed.

(** A step whose request gets no response raises from its own handler,
    which reads the local [response] before it was ever bound. *)
Lemma unreachable_step_raises {A} (w : world) (req : request)
    (body : response -> M A) (k : M A) (st : state) :
  server w (issued st) req = Unreachable ->
  fst (try_request (http w req) body (fun response e => print_error response e ;; k) st)
  = Raise UnboundLocalError
  /\ fst (try_request (http w req) (fun r => body r ;; ret tt) print_error st)
     = Raise UnboundLocalError.
Proof.
  intros H. unfold try_request, http. rewrite H. split; reflexivity.
Qed.

(** C2 does not hold of the script. When the creation of the principal is
    answered 409, [run_steps] ends in a [TypeError] after three requests
    (token, catalog, principal): steps 3 to 7 are not attempted. When the
    server is unreachable for the first step, [run_steps] ends in an
    [UnboundLocalError] raised by the handler of that step, after two
    requests. *)
Theorem failed_step_aborts_run :
  fst (run_steps (Scenario.world_of Scenario.conflict) Scenario.start) = Raise TypeError
  /\ map call_of (issued (snd (run_steps (Scenario.world_of Scenario.conflict)
                               Scenario.start)))
     = [(POST, "http://localhost:32000/api/catalog/v1/oauth/tokens");
        (POST, "http://localhost:32000/api/management/v1/catalogs");
        (POST, "http://localhost:32000/api/management/v1/principals")]
  /\ fst (run_steps (Scenario.world_of Scenario.drop) Scenario.start)
     = Raise UnboundLocalError
  /\ map call_of (issued (snd (run_steps (Scenario.world_of Scenario.drop)
                               Scenario.start)))
     = [(POST, "http://localhost:32000/api/catalog/v1/oauth/tokens");
        (POST, "http://localhost:32000/api/management/v1/catalogs")].
Proof.
  repeat split; vm_compute; reflexivity.
Qed.

(** *** The steps against a server that accepts them *)

Lemma bind_step {A B} (m : M A) (k : A -> M B) (st : state) (a : A) :
  fst (m st) = Ok a -> bind m k st = k a (snd (m st)).
Proof.
  unfold bind. destruct (m st) as [[x|e] st1]; simpl; intros [= ->]; reflexivity.
Qed.

Lemma bind_lift {A B} (a : A) (k : A -> M B) (st : state) :
  bind (lift (Ok a)) k st = k a st.
Proof. reflexivity. Qed.





Ltac step_sent :=
  rewrite bind_LOGGER, try_request_sent; auto with frame.





Lemma create_principal_sent (w : world) (tok : pyval) (uri name ty : string) (st : state) :
  issued (snd (create_principal w tok uri name ty st))
  = issued st ++ [{| method := POST; url := uri +++ "/principals";
                   headers := build_headers tok;
                   data := Dumps (PDict [("name", PStr name); ("type", PStr ty)]) |}].
Proof.
  unfold create_principal. rewrite bind_LOGGER, try_request_sent; [reflexivity| |].
  - intros r. frame; auto with frame.
  - intros o e. frame; auto with frame.
Qed.

(** *** The end-to-end scenario *)







(** The seven management requests of the scenario, written out. *)
Example scenario_management_calls :
  management_calls (Scenario.world_of Scenario.accept)
  = [(POST, "http://localhost:32000/api/management/v1/catalogs");
     (POST, "http://localhost:32000/api/management/v1/principals");
     (POST, "http://localhost:32000/api/management/v1/principal-roles");
     (PUT, "http://localhost:32000/api/management/v1/principals/polarisuser/principal-roles");
     (POST, "http://localhost:32000/api/management/v1/catalogs/my_catalog/catalog-roles");
     (PUT, "http://localhost:32000/api/management/v1/principal-roles/polarisuser_role/catalog-roles/my_catalog");
     (PUT, "http://localhost:32000/api/management/v1/catalogs/my_catalog/catalog-roles/my_catalog_role/grants")].
Proof. vm_compute. reflexivity. Qed.

(** Lines too short to hold a timestamp, or with a malformed one, get
    [datetime.min] and an error record in the log. *)
Example short_and_malformed_lines :
  map (fun line => fst (extract_timestamp line Scenario.start))
    [""; "root principal credentials: a:b"; "2024-02-30T00:00:00.000000000Z x";
     "2024-01-01T00:00:60.000000000Z x"; "2024-01-01 00:00:00.000000000Z x"]
  = [Ok DT.min; Ok DT.min; Ok DT.min; Ok DT.min; Ok DT.min]
  /\ logged (snd (extract_timestamp "" Scenario.start))
     = [(ERROR, T "Error parsing timestamp from line: ")].
Proof. vm_compute. split; reflexivity. Qed.

(* ================================================================== *)
(** ** Further properties *)

(** *** Port resolution *)

(** X1. [get_api_port] returns a host port exactly when a container is
    found, its port table has the key [<port>/tcp], the key is bound to a
    non-empty list, and the port is the [HostPort] of the first binding;
    in every other case (no container, key missing, key bound to [None] or
    to an empty list) it returns [None]. *)
Theorem get_api_port_some (w : world) (container_port : Z) (host_port : string) :
  get_api_port w container_port = Some host_port
  <-> exists c m ms,
        get_polaris_container w (project_name_default w) = Some c
        /\ Py.lookup (Py.str_int container_port +++ "/tcp") (Ports c) = Some (Some (m :: ms))
        /\ HostPort m = host_port.
Proof.
  unfold get_api_port. split.
  - destruct (get_polaris_container w (project_name_default w)) as [c|]; [|discriminate].
    destruct (Py.lookup _ (Ports c)) as [[[|m ms]|]|] eqn:E; try discriminate.
    intros [= <-]. exists c, m, ms. auto.
  - intros (c & m & ms & -> & -> & <-). reflexivity.
Qed.

(** *** Lookup failures *)

Lemma extract_keeps_sent (w : world) :
  keeps issued (extract_root_principal_credentials w).
Proof.
  unfold extract_root_principal_credentials, get_root_cred_log_lines, sorted_reverse.
  frame; auto using extract_timestamp_keeps with frame.
Qed.

(** X2. Unless the extraction yields a tuple of two strings, [run_steps]
    ends in an exception before any request is issued. *)
Theorem run_steps_needs_pair (w : world) (st : state) :
  (forall a b, fst (extract_root_principal_credentials w st) <> Ok (Some [a; b])) ->
  exists e, fst (run_steps w st) = Raise e
            /\ issued (snd (run_steps w st)) = issued st.
Proof.
  intros Hno. unfold run_steps.
  pose proof (extract_keeps_sent w st) as Hs.
  destruct (extract_root_principal_credentials w st) as [[v|e] st1] eqn:E;
    simpl in Hs, Hno.
  - rewrite (bind_ok _ _ _ _ _ E).
    destruct v as [[|a [|b [|c l]]]|];
      try (eexists; split; [reflexivity | exact Hs]).
    exfalso. apply (Hno a b). reflexivity.
  - rewrite (bind_raise _ _ _ _ _ E). exists e. split; [reflexivity | exact Hs].
Qed.

Lemma run_steps_needs_pair_witness :
  exists e, fst (run_steps Cases.nowhere Scenario.start) = Raise e
            /\ issued (snd (run_steps Cases.nowhere Scenario.start)) = issued Scenario.start.
Proof.
  apply (run_steps_needs_pair Cases.nowhere Scenario.start).
  intros a b. vm_compute. discriminate.
Defined.

(** X3. When no container is found, [get_root_cred_log_lines] returns
    [None], [get_api_port] returns [None], the extraction raises a
    [TypeError] by subscripting that [None], and so does [run_steps], with
    the state untouched: nothing is logged, printed or issued. *)
Theorem nothing_without_container (w : world) (st : state) :
  get_polaris_container w (project_name_default w) = None ->
  get_root_cred_log_lines w st = (Ok None, st)
  /\ get_api_port w 8181 = None
  /\ extract_root_principal_credentials w st = (Raise TypeError, st)
  /\ run_steps w st = (Raise TypeError, st).
Proof.
  intros H.
  assert (G : get_root_cred_log_lines w st = (Ok None, st))
    by (unfold get_root_cred_log_lines; rewrite H; reflexivity).
  assert (E : extract_root_principal_credentials w st = (Raise TypeError, st))
    by (unfold extract_root_principal_credentials; rewrite (bind_ok _ _ _ _ _ G);
        reflexivity).
  repeat split; try assumption.
  - unfold get_api_port. rewrite H. reflexivity.
  - unfold run_steps. rewrite (bind_raise _ _ _ _ _ E). reflexivity.
Qed.

Lemma nothing_without_container_witness :
  run_steps Cases.nowhere Scenario.start = (Raise TypeError, Scenario.start).
Proof.
  refine (proj2 (proj2 (proj2 (nothing_without_container Cases.nowhere
                                  Scenario.start _)))).
  reflexivity.
Defined.



(** *** Selection and order of the log lines, for any log *)














(** On a log with two announcements of one timestamp after an older one,
    the two come first, in log order. *)
Example tied_log_order :
  fst (get_root_cred_log_lines Cases.tied_world Scenario.start)
  = Ok (Some [Cases.tie_first; Cases.tie_second; Scenario.older]).
Proof. vm_compute. reflexivity. Qed.

(** *** The two stages of the extraction *)

Lemma str_app_assoc (a b c : string) : (a +++ b) +++ c = a +++ b +++ c.
Proof. induction a; simpl; congruence. Qed.

Lemma str_app_inv_head (a b c : string) : a +++ b = a +++ c -> b = c.
Proof. induction a; simpl; [auto|]. intros [= H]. auto. Qed.

Lemma lstrip_decomp (s : string) :
  exists ws, s = ws +++ Str.lstrip s /\ Str.lstrip ws = "".
Proof.
  induction s as [|c s IH]; simpl.
  - exists "". auto.
  - destruct (Str.isspace c) eqn:E.
    + destruct IH as (ws & H & Hws). exists (String c ws). simpl.
      rewrite E, <- H. auto.
    + exists "". auto.
Qed.

Lemma lstrip_head (s : string) (c : ascii) (r : string) :
  Str.lstrip s = String c r -> Str.isspace c = false.
Proof.
  induction s as [|x s IH]; simpl; [discriminate|].
  destruct (Str.isspace x) eqn:E; [exact IH|]. intros [= <- _]. exact E.
Qed.

Lemma rstrip_decomp (s : string) :
  exists ws, s = Str.rstrip s +++ ws /\ Str.lstrip ws = "".
Proof.
  induction s as [|c s IH]; simpl.
  - exists "". auto.
  - destruct IH as (ws & H & Hws).
    destruct (Str.rstrip s) as [|d t] eqn:R.
    + simpl in H. subst ws. destruct (Str.isspace c) eqn:E.
      * exists (String c s). simpl. rewrite E. auto.
      * exists s. auto.
    + exists ws. simpl. rewrite H at 1. auto.
Qed.

Lemma rstrip_idem (s : string) : Str.rstrip (Str.rstrip s) = Str.rstrip s.
Proof.
  induction s as [|c s IH]; simpl; [reflexivity|].
  destruct (Str.rstrip s) as [|d t] eqn:R.
  - destruct (Str.isspace c) eqn:E; simpl; [reflexivity|]. rewrite E. reflexivity.
  - change (Str.rstrip (String c (String d t)))
      with (match Str.rstrip (String d t) with
            | EmptyString => if Str.isspace c then EmptyString else String c EmptyString
            | String e u => String c (String e u)
            end).
    rewrite IH. reflexivity.
Qed.

Lemma group1_decomp (s : string) :
  exists post, s = group1 s +++ post /\ (post = "" \/ exists t, post = String Str.LF t).
Proof.
  induction s as [|c s IH]; simpl.
  - exists "". auto.
  - destruct (Ascii.eqb_spec c Str.LF) as [->|N].
    + exists (String Str.LF s). eauto.
    + destruct IH as (post & H & Hp). exists post. simpl. rewrite <- H. auto.
Qed.

Lemma group1_no_LF (s : string) : Str.has_char Str.LF (group1 s) = false.
Proof.
  induction s as [|c s IH]; simpl; [reflexivity|].
  destruct (Ascii.eqb c Str.LF) eqn:E; simpl; [reflexivity|]. rewrite E. exact IH.
Qed.

Lemma break_at_sound (c : ascii) (s x y : string) :
  Str.break_at c s = Some (x, y) -> s = x +++ String c y /\ Str.has_char c x = false.
Proof.
  revert x. induction s as [|a s IH]; simpl; intros x; [discriminate|].
  destruct (Ascii.eqb_spec a c) as [->|N].
  - intros [= <- <-]. auto.
  - destruct (Str.break_at c s) as [[x' y']|]; [|discriminate].
    intros [= <- <-]. destruct (IH x' eq_refl) as [-> H]. simpl.
    apply Ascii.eqb_neq in N. rewrite N. auto.
Qed.

(** X8. A pair returned by the extraction comes from the line: the line
    holds the phrase (in any case), optional whitespace, a colon, optional
    whitespace, the first component, a colon, the second component,
    optional whitespace, and then ends or continues with a line feed. The
    first component holds no colon and does not start with whitespace; the
    second does not end with whitespace and may hold colons; neither holds
    a line feed. *)
Theorem pair_comes_from_line (line a b : string) :
  credentials_of_line line = Some [a; b] ->
  Str.has_char Str.colon a = false
  /\ Str.lstrip a = a /\ Str.rstrip b = b
  /\ Str.has_char Str.LF a = false /\ Str.has_char Str.LF b = false
  /\ exists pre p ws sp1 sp2 post,
       line = pre +++ p +++ ws
              +++ String Str.colon (sp1 +++ a +++ String Str.colon (b +++ sp2 +++ post))
       /\ Str.lower p = phrase
       /\ Str.lstrip ws = "" /\ Str.lstrip sp1 = "" /\ Str.lstrip sp2 = ""
       /\ (post = "" \/ exists t, post = String Str.LF t).
Proof.
  unfold credentials_of_line.
  destruct (Str.contains phrase (Str.lower line)); [|discriminate].
  destruct (re_search line) as [g|] eqn:E; [|discriminate].
  unfold Str.split1. destruct (Str.break_at Str.colon (Str.strip g)) as [[x y]|] eqn:B;
    [|discriminate].
  intros [= <- <-]. destruct (break_at_sound _ _ _ _ B) as [Hs Hx].
  destruct (re_search_sound _ _ E) as (pre & p & ws & rest & Hline & Hp & Hws & Hg).
  destruct (group1_decomp rest) as (post & Hrest & Hpost).
  destruct (lstrip_decomp g) as (sp1 & Hg1 & Hsp1).
  destruct (rstrip_decomp (Str.lstrip g)) as (sp2 & Hg2 & Hsp2).
  fold (Str.strip g) in Hg2.
  assert (Hlf : Str.has_char Str.LF (Str.strip g) = false).
  { destruct (Str.has_char Str.LF (Str.strip g)) eqn:C; [|reflexivity].
    apply has_char_strip in C. rewrite Hg, group1_no_LF in C. discriminate. }
  rewrite Hs, has_char_app in Hlf. simpl in Hlf.
  apply orb_false_elim in Hlf as [Hla Hlb].
  split; [exact Hx|]. split; [|split; [|split; [exact Hla|split; [exact Hlb|]]]].
  - destruct x as [|c x]; [reflexivity|].
    assert (Hc : Str.isspace c = false).
    { unfold Str.strip in Hs. destruct (Str.lstrip g) as [|d t] eqn:L;
        [discriminate|].
      pose proof (lstrip_head _ _ _ L) as Hd.
      pose proof (rstrip_app_stop d "" t Hd) as R.
      change (Str.rstrip (String d t) = String d (Str.rstrip t)) in R.
      rewrite R in Hs. injection Hs as -> _. exact Hd. }
    simpl. rewrite Hc. reflexivity.
  - pose proof (rstrip_idem (Str.lstrip g)) as I. fold (Str.strip g) in I.
    rewrite Hs, (rstrip_app_stop Str.colon x y eq_refl) in I.
    apply str_app_inv_head in I. injection I as I. exact I.
  - exists pre, p, ws, sp1, sp2, post. repeat split; try assumption.
    rewrite Hline. do 3 f_equal. f_equal.
    rewrite Hrest, <- Hg, Hg1, Hg2, Hs.
    rewrite !str_app_assoc. simpl. rewrite ?str_app_assoc. reflexivity.
Qed.

Lemma pair_comes_from_line_witness :
  Str.has_char Str.colon "abc" = false
  /\ Str.lstrip "abc" = "abc" /\ Str.rstrip "xyz" = "xyz"
  /\ Str.has_char Str.LF "abc" = false /\ Str.has_char Str.LF "xyz" = false
  /\ exists pre p ws sp1 sp2 post,
       Scenario.line
       = pre +++ p +++ ws
         +++ String Str.colon (sp1 +++ "abc" +++ String Str.colon ("xyz" +++ sp2 +++ post))
       /\ Str.lower p = phrase
       /\ Str.lstrip ws = "" /\ Str.lstrip sp1 = "" /\ Str.lstrip sp2 = ""
       /\ (post = "" \/ exists t, post = String Str.LF t).
Proof.
  apply (pair_comes_from_line Scenario.line "abc" "xyz"). reflexivity.
Defined.

(** *** Parsing the timestamps that are printed *)

Lemma hd_bind {A B} (p : DT.matcher A) (f : A -> DT.matcher B) (s r : string)
    (a : A) (v : B * string) :
  hd_error (p s) = Some (a, r) -> hd_error (f a r) = Some v ->
  hd_error (DT.bind p f s) = Some v.
Proof.
  unfold DT.bind. destruct (p s) as [|[a' r'] tl]; simpl; [discriminate|].
  intros [= -> ->]. destruct (f a r); simpl; [discriminate | auto].
Qed.

Lemma hd_alt {A} (p q : DT.matcher A) (s : string) (v : A * string) :
  hd_error (p s) = Some v -> hd_error (DT.alt p q s) = Some v.
Proof.
  unfold DT.alt. destruct (p s); simpl; [discriminate | auto].
Qed.

Lemma code_digit (u : N) : (u < 10)%N -> Str.code (digit_char u) = (48 + u)%N.
Proof.
  intros H. unfold Str.code, digit_char. apply N_ascii_embedding. lia.
Qed.

Lemma dig_ok (u : N) (r : string) :
  (u < 10)%N -> hd_error (DT.dig 0 9 (String (digit_char u) r)) = Some (u, r).
Proof.
  intros H. unfold DT.dig, DT.bind, DT.sat, DT.ret, DT.digit_val.
  rewrite (code_digit u H). unfold Str.between.
  replace ((48 + 0 <=? 48 + u) && (48 + u <=? 48 + 9))%N with true
    by (symmetry; apply andb_true_intro; split; apply N.leb_le; lia).
  cbn [flat_map fst snd app hd_error]. rewrite (code_digit u H).
  do 2 f_equal. lia.
Qed.

(** A field of two digits: every value below [bound] parses to itself. *)
Ltac two_digit_field :=
  let n := fresh "n" in
  let r := fresh "r" in
  let H := fresh "H" in
  intros n r H;
  destruct n as [|p];
  [ try (exfalso; lia); try (vm_compute; reflexivity)
  | do 6 (try (destruct p as [p|p|]));
    try (exfalso; lia); vm_compute; reflexivity ].

Lemma re_m_ok : forall n r, (1 <= n <= 12)%N ->
  hd_error (DT.re_m (two_digits n +++ r)) = Some (n, r).
Proof. two_digit_field. Qed.

Lemma re_d_ok : forall n r, (1 <= n <= 31)%N ->
  hd_error (DT.re_d (two_digits n +++ r)) = Some (n, r).
Proof. two_digit_field. Qed.

Lemma re_H_ok : forall n r, (n <= 23)%N ->
  hd_error (DT.re_H (two_digits n +++ r)) = Some (n, r).
Proof. two_digit_field. Qed.

Lemma re_M_ok : forall n r, (n <= 59)%N ->
  hd_error (DT.re_M (two_digits n +++ r)) = Some (n, r).
Proof. two_digit_field. Qed.

Lemma re_S_ok : forall n r, (n <= 59)%N ->
  hd_error (DT.re_S (two_digits n +++ r)) = Some (n, r).
Proof. two_digit_field. Qed.

Ltac euclid := zify; Z.to_euclidean_division_equations; lia.

Lemma re_Y_ok (y : N) (r : string) :
  (y < 10000)%N -> hd_error (DT.re_Y (four_digits y +++ r)) = Some (y, r).
Proof.
  intros H. unfold DT.re_Y.
  change (four_digits y +++ r)
    with (String (digit_char (y / 100 / 10))
            (String (digit_char ((y / 100) mod 10))
               (String (digit_char (y mod 100 / 10))
                  (String (digit_char ((y mod 100) mod 10)) r)))).
  eapply hd_bind; [apply dig_ok; euclid|].
  eapply hd_bind; [apply dig_ok; euclid|].
  eapply hd_bind; [apply dig_ok; euclid|].
  eapply hd_bind; [apply dig_ok; euclid|].
  unfold DT.ret. cbn [hd_error]. do 2 f_equal. euclid.
Qed.

Lemma re_f_ok (f : N) (r : string) :
  (f < 1000000)%N -> hd_error (DT.re_f (six_digits f +++ r)) = Some (f, r).
Proof.
  intros H. unfold DT.re_f.
  change (six_digits f +++ r)
    with (String (digit_char (f / 10000 / 10))
            (String (digit_char ((f / 10000) mod 10))
               (String (digit_char (f / 100 mod 100 / 10))
                  (String (digit_char ((f / 100 mod 100) mod 10))
                     (String (digit_char (f mod 100 / 10))
                        (String (digit_char ((f mod 100) mod 10)) r)))))).
  eapply hd_bind; [apply dig_ok; euclid|].
  eapply hd_bind.
  - do 5 (cbn [DT.upto]; apply hd_alt;
          eapply hd_bind; [apply dig_ok; euclid|]; eapply hd_bind; [|reflexivity]).
    reflexivity.
  - unfold DT.ret. cbn [DT.frac_val hd_error]. do 2 f_equal.
    change (10 ^ N.of_nat 5)%N with 100000%N. change (10 ^ N.of_nat 4)%N with 10000%N.
    change (10 ^ N.of_nat 3)%N with 1000%N. change (10 ^ N.of_nat 2)%N with 100%N.
    change (10 ^ N.of_nat 1)%N with 10%N. change (10 ^ N.of_nat 0)%N with 1%N.
    euclid.
Qed.

Lemma lit_ok (c : ascii) (r : string) :
  hd_error (DT.lit c (String c r)) = Some (tt, r).
Proof.
  unfold DT.lit, DT.bind, DT.sat. rewrite Ascii.eqb_refl. reflexivity.
Qed.

Lemma valid_ranges (d : DT.datetime) :
  valid d ->
  (DT.year d < 10000 /\ 1 <= DT.month d <= 12 /\ 1 <= DT.day d <= 31
   /\ DT.hour d <= 23 /\ DT.minute d <= 59 /\ DT.second d <= 59
   /\ DT.microsecond d < 1000000)%N.
Proof.
  unfold valid, DT.make. destruct (_ && _)%bool eqn:E; [|discriminate]. intros _.
  repeat (apply andb_prop in E; destruct E as [E ?]).
  repeat match goal with H : (_ <=? _)%N = true |- _ => apply N.leb_le in H end.
  assert (DT.days_in_month (DT.year d) (DT.month d) <= 31)%N.
  { unfold DT.days_in_month.
    repeat match goal with |- context [if ?b then _ else _] => destruct b end; lia. }
  lia.
Qed.

Lemma format_regex_stamped (d : DT.datetime) :
  valid d ->
  hd_error (DT.format_regex (stamped d "Z"))
  = Some ((DT.year d, DT.month d, DT.day d, DT.hour d, DT.minute d, DT.second d,
           DT.microsecond d), "").
Proof.
  intros Hv. destruct (valid_ranges d Hv) as (Hy & Hm & Hd & Hh & Hmi & Hs & Hf).
  unfold DT.format_regex, stamped.
  eapply hd_bind; [apply re_Y_ok; assumption|].
  eapply hd_bind; [apply lit_ok|].
  eapply hd_bind; [apply re_m_ok; assumption|].
  eapply hd_bind; [apply lit_ok|].
  eapply hd_bind; [apply re_d_ok; assumption|].
  eapply hd_bind; [apply lit_ok|].
  eapply hd_bind; [apply re_H_ok; assumption|].
  eapply hd_bind; [apply lit_ok|].
  eapply hd_bind; [apply re_M_ok; assumption|].
  eapply hd_bind; [apply lit_ok|].
  eapply hd_bind; [apply re_S_ok; assumption|].
  eapply hd_bind; [apply lit_ok|].
  eapply hd_bind; [apply re_f_ok; assumption|].
  eapply hd_bind; [apply lit_ok|].
  reflexivity.
Qed.

(** X9. The parser reads back what is printed: for every valid datetime,
    a line that starts with its timestamp, year to microsecond in the
    format of the script, has that datetime for key, whatever follows the
    26th character (further digits of the fraction, the zone, the
    message); nothing is logged. *)
Theorem printed_timestamp_is_read_back (d : DT.datetime) (rest : string) (st : state) :
  valid d ->
  timestamp_of (stamped d rest) = d
  /\ extract_timestamp (stamped d rest) st = (Ok d, st).
Proof.
  intros Hv.
  assert (P : DT.strptime (Str.take 26 (stamped d rest) +++ "Z") = Ok d).
  { change (Str.take 26 (stamped d rest) +++ "Z") with (stamped d "Z").
    unfold DT.strptime. pose proof (format_regex_stamped d Hv) as H.
    destruct (DT.format_regex (stamped d "Z")) as [|[t r] tl]; [discriminate|].
    simpl in H. injection H as -> ->. exact Hv. }
  unfold timestamp_of, extract_timestamp. rewrite P. auto.
Qed.

Lemma printed_timestamp_is_read_back_witness :
  timestamp_of (stamped (DT.mk 2024 2 29 23 59 59 123456) "789Z started") 
  = DT.mk 2024 2 29 23 59 59 123456
  /\ extract_timestamp (stamped (DT.mk 2024 2 29 23 59 59 123456) "789Z started")
       Scenario.start
     = (Ok (DT.mk 2024 2 29 23 59 59 123456), Scenario.start).
Proof.
  apply (printed_timestamp_is_read_back (DT.mk 2024 2 29 23 59 59 123456)
           "789Z started" Scenario.start).
  reflexivity.
Defined.

Example stamped_text :
  stamped (DT.mk 2024 2 29 23 59 59 123456) "789Z started"
  = "2024-02-29T23:59:59.123456789Z started".
Proof. reflexivity. Qed.

(** *** One request per step *)

Lemma create_principal_role_sent (w : world) (tok : pyval) (uri role : string)
    (st : state) :
  issued (snd (create_principal_role w tok uri role st))
  = issued st ++ [{| method := POST; url := uri +++ "/principal-roles";
                   headers := build_headers tok;
                   data := Dumps (PDict [("name", PStr role)]) |}].
Proof. unfold create_principal_role. step_sent. Qed.

Lemma assign_role_to_principal_sent (w : world) (tok : pyval)
    (uri role principal : string) (st : state) :
  issued (snd (assign_role_to_principal w tok uri role principal st))
  = issued st ++ [{| method := PUT;
                   url := uri +++ "/principals/" +++ principal +++ "/principal-roles";
                   headers := build_headers tok;
                   data := Dumps (PDict [("principalRole",
                                          PDict [("name", PStr role)])]) |}].
Proof. unfold assign_role_to_principal. step_sent. Qed.

Lemma create_catalog_role_sent (w : world) (tok : pyval) (uri catalog role : string)
    (st : state) :
  issued (snd (create_catalog_role w tok uri catalog role st))
  = issued st ++ [{| method := POST;
                   url := uri +++ "/catalogs/" +++ catalog +++ "/catalog-roles";
                   headers := build_headers tok;
                   data := Dumps (PDict [("catalogRole",
                                          PDict [("name", PStr role)])]) |}].
Proof.
  unfold create_catalog_role. step_sent. intros o e. frame; auto with frame.
Qed.

Lemma assign_catalog_role_to_principal_role_sent (w : world) (tok : pyval)
    (uri principal_role catalog_role catalog : string) (st : state) :
  issued (snd (assign_catalog_role_to_principal_role w tok uri principal_role
               catalog_role catalog st))
  = issued st ++ [{| method := PUT;
                   url := uri +++ "/principal-roles/" +++ principal_role
                          +++ "/catalog-roles/" +++ catalog;
                   headers := build_headers tok;
                   data := Dumps (PDict [("catalogRole",
                                          PDict [("name", PStr catalog_role)])]) |}].
Proof. unfold assign_catalog_role_to_principal_role. step_sent. Qed.

Lemma grants_to_catalog_role_on_catalog_sent (w : world) (tok : pyval)
    (uri catalog_role catalog privilege ty : string) (st : state) :
  issued (snd (grants_to_catalog_role_on_catalog w tok uri catalog_role catalog
               privilege ty st))
  = issued st ++ [{| method := PUT;
                   url := uri +++ "/catalogs/" +++ catalog +++ "/catalog-roles/"
                          +++ catalog_role +++ "/grants";
                   headers := build_headers tok;
                   data := Dumps (PDict [("grant",
                                          PDict [("type", PStr ty);
                                                 ("privilege", PStr privilege)])]) |}].
Proof. unfold grants_to_catalog_role_on_catalog. step_sent. Qed.

(** X10. Each of the six steps that follow the creation of the catalog
    issues exactly one request, that is, calls [requests.post] or
    [requests.put] exactly once, whatever becomes of the request (refused
    by the library, unanswered, answered) and whether or not the step then
    raises: no retry and no second call. The request handed over has the
    method, the path under the management URI, the headers built from the
    token and the JSON payload written in the step. *)
Theorem step_issues_one_request (w : world) (tok : pyval) (uri : string) (st : state) :
  (forall name ty,
     issued (snd (create_principal w tok uri name ty st))
     = issued st ++ [{| method := POST; url := uri +++ "/principals";
                      headers := build_headers tok;
                      data := Dumps (PDict [("name", PStr name); ("type", PStr ty)]) |}])
  /\ (forall role,
        issued (snd (create_principal_role w tok uri role st))
        = issued st ++ [{| method := POST; url := uri +++ "/principal-roles";
                         headers := build_headers tok;
                         data := Dumps (PDict [("name", PStr role)]) |}])
  /\ (forall role principal,
        issued (snd (assign_role_to_principal w tok uri role principal st))
        = issued st ++ [{| method := PUT;
                         url := uri +++ "/principals/" +++ principal
                                +++ "/principal-roles";
                         headers := build_headers tok;
                         data := Dumps (PDict [("principalRole",
                                                PDict [("name", PStr role)])]) |}])
  /\ (forall catalog role,
        issued (snd (create_catalog_role w tok uri catalog role st))
        = issued st ++ [{| method := POST;
                         url := uri +++ "/catalogs/" +++ catalog +++ "/catalog-roles";
                         headers := build_headers tok;
                         data := Dumps (PDict [("catalogRole",
                                                PDict [("name", PStr role)])]) |}])
  /\ (forall principal_role catalog_role catalog,
        issued (snd (assign_catalog_role_to_principal_role w tok uri principal_role
                     catalog_role catalog st))
        = issued st ++ [{| method := PUT;
                         url := uri +++ "/principal-roles/" +++ principal_role
                                +++ "/catalog-roles/" +++ catalog;
                         headers := build_headers tok;
                         data := Dumps (PDict [("catalogRole",
                                                PDict [("name", PStr catalog_role)])]) |}])
  /\ (forall catalog_role catalog privilege ty,
        issued (snd (grants_to_catalog_role_on_catalog w tok uri catalog_role catalog
                     privilege ty st))
        = issued st ++ [{| method := PUT;
                         url := uri +++ "/catalogs/" +++ catalog +++ "/catalog-roles/"
                                +++ catalog_role +++ "/grants";
                         headers := build_headers tok;
                         data := Dumps (PDict [("grant",
                                                PDict [("type", PStr ty);
                                                       ("privilege", PStr privilege)])]) |}]).
Proof.
  repeat split; intros.
  - apply create_principal_sent.
  - apply create_principal_role_sent.
  - apply assign_role_to_principal_sent.
  - apply create_catalog_role_sent.
  - apply assign_catalog_role_to_principal_role_sent.
  - apply grants_to_catalog_role_on_catalog_sent.
Qed.

(** *** Order of the requests, whatever the server does *)

Lemma sends_prefix_ret {A} (calls : list (http_method * string)) (a : A) :
  sends_prefix_of calls (ret a).
Proof. intros st. exists 0%nat. simpl. rewrite app_nil_r. reflexivity. Qed.

Lemma sends_prefix_keep {A B} (calls : list (http_method * string))
    (m : M A) (k : A -> M B) :
  keeps issued m -> (forall a, sends_prefix_of calls (k a)) ->
  sends_prefix_of calls (bind m k).
Proof.
  intros Hm Hk st. unfold bind. specialize (Hm st).
  destruct (m st) as [[a|e] st1]; simpl in Hm.
  - destruct (Hk a st1) as (n & Hn). exists n. rewrite Hn, Hm. reflexivity.
  - exists 0%nat. simpl. rewrite Hm, app_nil_r. reflexivity.
Qed.

Lemma sends_prefix_one {A B} (c : http_method * string)
    (calls : list (http_method * string)) (m : M A) (k : A -> M B) :
  (forall st, map call_of (issued (snd (m st))) = map call_of (issued st) ++ [c]) ->
  (forall a, sends_prefix_of calls (k a)) ->
  sends_prefix_of (c :: calls) (bind m k).
Proof.
  intros Hm Hk st. unfold bind. specialize (Hm st).
  destruct (m st) as [[a|e] st1]; simpl in Hm.
  - destruct (Hk a st1) as (n & Hn). exists (S n).
    rewrite Hn, Hm, <- app_assoc. reflexivity.
  - exists 1%nat. simpl. exact Hm.
Qed.

Ltac one_call lemma :=
  eapply sends_prefix_one;
  [ let st := fresh "st" in intro st; rewrite lemma, map_app; reflexivity
  | intro ].

Ltac no_call :=
  apply sends_prefix_keep; [solve [primitive | auto with frame] | intro].

(** X11. Whatever the container, the log and the server, the requests
    that [run_steps] issues are, by method and URL, the first few of: the
    token request, then the seven management requests in the order of the
    steps. No request is issued twice or out of order, and once a step
    raises nothing more is issued. *)
Theorem requests_in_order (w : world) :
  sends_prefix_of
    ((POST, "http://" +++ api_host w +++ ":" +++ fmt (api_port w)
            +++ "/api/catalog/v1/oauth/tokens")
     :: management_calls w)
    (run_steps w).
Proof.
  unfold run_steps, management_calls. cbv zeta.
  apply sends_prefix_keep; [apply extract_keeps_sent | intro].
  no_call. no_call.
  one_call get_auth_token_sent.
  no_call.
  eapply sends_prefix_one;
    [ intro st;
      rewrite (proj2 (proj2 (create_catalog_effect _ _ _ _ _ _ _ st))), map_app;
      reflexivity
    | intro ].
  one_call create_principal_sent.
  no_call. no_call.
  one_call create_principal_role_sent.
  one_call assign_role_to_principal_sent.
  one_call create_catalog_role_sent.
  one_call assign_catalog_role_to_principal_role_sent.
  one_call grants_to_catalog_role_on_catalog_sent.
  apply sends_prefix_ret.
Qed.

(** *** The token exchange inside the run *)

Lemma get_auth_token_outcome (w : world) (cid cs host : string) (port : option string)
    (st : state) :
  fst (get_auth_token w cid cs host port st)
  = token_result (server w (issued st) (token_request cid cs host port)).
Proof.
  unfold get_auth_token, bind, http, lift, json, token_result.
  destruct (server w (issued st) _) as [resp| |e]; simpl; [|reflexivity|reflexivity].
  destruct (status_code resp =? 200)%Z; [|reflexivity].
  destruct (body resp); reflexivity.
Qed.

(** The run up to the token exchange, once a pair is extracted. *)
Lemma run_steps_after_extraction (w : world) (st : state) (a b : string) :
  fst (extract_root_principal_credentials w st) = Ok (Some [a; b]) ->
  exists st2,
    issued st2 = issued st /\ heap st2 = heap st
    /\ run_steps w st
       = (do root_auth_token <- get_auth_token w a b (api_host w) (api_port w);
          LOGGER INFO (T ("Root Auth Token: " +++ Py.str root_auth_token)) ;;
          create_catalog w root_auth_token (mgmt_uri (api_host w) (api_port w))
            (catalog_name_default w) (default_base_location_default w) "FILE"
            allowed_locations_default ;;
          do principal <- create_principal w root_auth_token
                            (mgmt_uri (api_host w) (api_port w))
                            (principal_name_default w) "user";
          do pids <- lift (Py.unpack2 principal);
          LOGGER INFO (T ("Principal Client ID: " +++ Py.str (fst pids)
                          +++ ", Principal Client Secret: " +++ Py.str (snd pids))) ;;
          create_principal_role w root_auth_token (mgmt_uri (api_host w) (api_port w))
            (principal_role_default w) ;;
          assign_role_to_principal w root_auth_token (mgmt_uri (api_host w) (api_port w))
            (principal_role_default w) (principal_name_default w) ;;
          create_catalog_role w root_auth_token (mgmt_uri (api_host w) (api_port w))
            (catalog_name_default w) (catalog_role_default w) ;;
          assign_catalog_role_to_principal_role w root_auth_token
            (mgmt_uri (api_host w) (api_port w))
            (principal_role_default w) (catalog_role_default w) (catalog_name_default w) ;;
          grants_to_catalog_role_on_catalog w root_auth_token
            (mgmt_uri (api_host w) (api_port w))
            (catalog_role_default w) (catalog_name_default w)
            "CATALOG_MANAGE_CONTENT" "catalog" ;;
          ret None) st2.
Proof.
  intros Hex.
  pose proof (extract_keeps_sent w st) as Hs.
  assert (Hh : keeps heap (extract_root_principal_credentials w)).
  { unfold extract_root_principal_credentials, get_root_cred_log_lines, sorted_reverse.
    frame; auto using extract_timestamp_keeps with frame. }
  specialize (Hh st).
  destruct (extract_root_principal_credentials w st) as [v st1] eqn:E.
  simpl in Hex, Hs, Hh. subst v.
  exists (snd (LOGGER INFO (T ("Client ID: " +++ a +++ ",Client Secret: " +++ b)) st1)).
  split; [exact Hs|]. split; [exact Hh|].
  unfold run_steps. rewrite (bind_ok _ _ _ _ _ E).
  change (Py.unpack2 (Some [a; b])) with (Ok (a, b)).
  rewrite bind_lift. cbv beta zeta. cbn [fst snd].
  rewrite bind_LOGGER. reflexivity.
Qed.

(** X12. Once a pair is extracted, a token exchange that fails ends the
    run: if the library refuses the request (its own exception), if the
    server is unreachable ([ConnectionError]), or answers 200 with a body
    that is not JSON ([JSONDecodeError]) or not an object holding
    [access_token] ([KeyError], [TypeError]), [run_steps] raises that
    exception after the token request alone; no management request is
    issued. *)
Theorem failed_token_exchange_ends_run (w : world) (st : state) (a b : string)
    (e : exn) :
  fst (extract_root_principal_credentials w st) = Ok (Some [a; b]) ->
  token_result (server w (issued st) (token_request a b (api_host w) (api_port w)))
  = Raise e ->
  fst (run_steps w st) = Raise e
  /\ issued (snd (run_steps w st))
     = issued st ++ [token_request a b (api_host w) (api_port w)].
Proof.
  intros Hex Htok.
  destruct (run_steps_after_extraction w st a b Hex) as (st2 & Hs & _ & ->).
  pose proof (get_auth_token_outcome w a b (api_host w) (api_port w) st2) as Ho.
  pose proof (get_auth_token_sent w a b (api_host w) (api_port w) st2) as Hsent.
  rewrite Hs, Htok in Ho. rewrite Hs in Hsent.
  destruct (get_auth_token w a b (api_host w) (api_port w) st2) as [r st3] eqn:G.
  simpl in Ho, Hsent. subst r. rewrite (bind_raise _ _ _ _ _ G).
  split; [reflexivity | exact Hsent].
Qed.

Lemma failed_token_exchange_ends_run_witness :
  fst (run_steps (Scenario.world_of Cases.unreachable) Scenario.start)
  = Raise ConnectionError
  /\ issued (snd (run_steps (Scenario.world_of Cases.unreachable) Scenario.start))
     = issued Scenario.start
       ++ [token_request "abc" "xyz" (api_host (Scenario.world_of Cases.unreachable))
             (api_port (Scenario.world_of Cases.unreachable))].
Proof.
  apply (failed_token_exchange_ends_run (Scenario.world_of Cases.unreachable)
           Scenario.start "abc" "xyz" ConnectionError);
    reflexivity.
Defined.

(** *** Requests that the library refuses *)

(** A client id read from the log with a carriage return in it makes an
    [Authorization] header that the library refuses: the token request is
    built and handed over, nothing goes out, and the run ends in
    [InvalidHeader]. *)
Example refused_token_header :
  fst (extract_root_principal_credentials Cases.broken_world Scenario.start)
  = Ok (Some ["a" +++ String Str.CR "bc"; "xyz"])
  /\ server Cases.broken_world []
       (token_request ("a" +++ String Str.CR "bc") "xyz" "localhost" (Some "32000"))
     = Refused InvalidHeader
  /\ fst (run_steps Cases.broken_world Scenario.start) = Raise InvalidHeader
  /\ issued (snd (run_steps Cases.broken_world Scenario.start))
     = [token_request ("a" +++ String Str.CR "bc") "xyz" "localhost" (Some "32000")].
Proof. vm_compute. repeat split; reflexivity. Qed.

(** With no port published and [POLARIS_API_PORT] unset the URL of the
    token request holds the port [None]: the library refuses it and the run
    ends in [InvalidURL]. *)
Example unpublished_port_url :
  url (token_request "abc" "xyz" (api_host Cases.unpublished_world)
         (api_port Cases.unpublished_world))
  = "http://localhost:None/api/catalog/v1/oauth/tokens"
  /\ fst (run_steps Cases.unpublished_world Scenario.start) = Raise InvalidURL
  /\ List.length (issued (snd (run_steps Cases.unpublished_world Scenario.start))) = 1%nat.
Proof. vm_compute. repeat split; reflexivity. Qed.

(** A step whose request the library refuses with a [RequestException]
    ends as one whose request got no answer: the handler reads the local
    [response], which was never bound. The one call of [requests.post] is
    all it made. *)
Example refused_step :
  let out := create_principal_role (Scenario.world_of Cases.checking)
               (PStr ("t0" +++ String Str.LF "k3n"))
               "http://localhost:32000/api/management/v1" "polarisuser_role"
               Scenario.start in
  fst out = Raise UnboundLocalError
  /\ List.length (issued (snd out)) = 1%nat
  /\ printed (snd out) = [].
Proof. vm_compute. repeat split; reflexivity. Qed.

(** *** The token on the management requests *)

Lemma sends_only_keep {A B} (P : request -> Prop) (m : M A) (k : A -> M B) :
  keeps issued m -> (forall a, sends_only P (k a)) -> sends_only P (bind m k).
Proof.
  intros Hm Hk st. unfold bind. specialize (Hm st).
  destruct (m st) as [[a|e] st1]; simpl in Hm.
  - destruct (Hk a st1) as (l & Hl & HP). exists l. rewrite Hl, Hm. auto.
  - exists []. simpl. rewrite Hm, app_nil_r. auto.
Qed.

Lemma sends_only_one {A B} (P : request -> Prop) (r : request) (m : M A)
    (k : A -> M B) :
  (forall st, issued (snd (m st)) = issued st ++ [r]) -> P r ->
  (forall a, sends_only P (k a)) -> sends_only P (bind m k).
Proof.
  intros Hm Hr Hk st. unfold bind. specialize (Hm st).
  destruct (m st) as [[a|e] st1]; simpl in Hm.
  - destruct (Hk a st1) as (l & Hl & HP). exists (r :: l).
    rewrite Hl, Hm, <- app_assoc. auto.
  - exists [r]. simpl. auto.
Qed.

Lemma sends_only_ret {A} (P : request -> Prop) (a : A) : sends_only P (ret a).
Proof. intros st. exists []. simpl. rewrite app_nil_r. auto. Qed.

Ltac one_request lemma :=
  eapply sends_only_one;
  [ let st := fresh "st" in intro st; apply lemma
  | split; [reflexivity | eexists; reflexivity]
  | intro ].

Ltac no_request :=
  apply sends_only_keep; [solve [primitive | auto with frame] | intro].

(** X13. Whatever value the token exchange returns is put, through
    [str], behind ["Bearer "] on every management request that the run
    then issues, and the run does not stop on a token that is [None]: the
    request that creates the catalog is issued in any case. So when the
    token endpoint answers a status other than 200, the catalog request
    and all later requests are built with [Authorization: Bearer None].
    (What becomes of a request so built is another matter: a token that
    holds a line feed makes a header that the library refuses, and the run
    then ends at the first step.) *)
Theorem token_on_every_management_request (w : world) (st : state) (a b : string)
    (tok : pyval) :
  fst (extract_root_principal_credentials w st) = Ok (Some [a; b]) ->
  token_result (server w (issued st) (token_request a b (api_host w) (api_port w)))
  = Ok tok ->
  exists first rest,
    issued (snd (run_steps w st))
    = issued st ++ token_request a b (api_host w) (api_port w) :: first :: rest
    /\ call_of first = (POST, mgmt_uri (api_host w) (api_port w) +++ "/catalogs")
    /\ Forall (fun r => Py.lookup "Authorization" (headers r)
                        = Some ("Bearer " +++ Py.str tok)
                        /\ exists p, data r = Dumps p)
         (first :: rest).
Proof.
  intros Hex Htok.
  destruct (run_steps_after_extraction w st a b Hex) as (st2 & Hs & _ & ->).
  pose proof (get_auth_token_outcome w a b (api_host w) (api_port w) st2) as Ho.
  pose proof (get_auth_token_sent w a b (api_host w) (api_port w) st2) as Hsent.
  rewrite Hs, Htok in Ho. rewrite Hs in Hsent.
  rewrite (bind_step _ _ _ _ Ho).
  set (st3 := snd (get_auth_token w a b (api_host w) (api_port w) st2)) in *.
  rewrite bind_LOGGER.
  set (st4 := snd (LOGGER INFO (T ("Root Auth Token: " +++ Py.str tok)) st3)).
  set (P := fun r => Py.lookup "Authorization" (headers r)
                     = Some ("Bearer " +++ Py.str tok)
                     /\ exists p, data r = Dumps p).
  destruct (create_catalog_effect w tok (mgmt_uri (api_host w) (api_port w))
              (catalog_name_default w) (default_base_location_default w) "FILE"
              allowed_locations_default st4) as (_ & _ & Hcat).
  match type of Hcat with _ = _ ++ [?r] => set (first := r) in * end.
  destruct (create_catalog w tok (mgmt_uri (api_host w) (api_port w))
              (catalog_name_default w) (default_base_location_default w) "FILE"
              allowed_locations_default st4) as [[u|e] st5] eqn:C; simpl in Hcat.
  - rewrite (bind_ok _ _ _ _ _ C). cbv beta.
    match goal with
    | |- context [snd (?m st5)] => assert (Hrest : sends_only P m)
    end.
    { subst P.
      one_request create_principal_sent.
      no_request. no_request.
      one_request create_principal_role_sent.
      one_request assign_role_to_principal_sent.
      one_request create_catalog_role_sent.
      one_request assign_catalog_role_to_principal_role_sent.
      one_request grants_to_catalog_role_on_catalog_sent.
      apply sends_only_ret. }
    destruct (Hrest st5) as (rest & Hl & HP).
    exists first, rest. rewrite Hl, Hcat.
    change (issued st4) with (issued st3). rewrite Hsent, <- !app_assoc.
    split; [reflexivity|]. split; [reflexivity|].
    constructor; [|exact HP]. split; [reflexivity | eexists; reflexivity].
  - rewrite (bind_raise _ _ _ _ _ C). exists first, []. simpl. rewrite Hcat.
    change (issued st4) with (issued st3). rewrite Hsent, <- !app_assoc.
    split; [reflexivity|]. split; [reflexivity|].
    constructor; [|constructor]. split; [reflexivity | eexists; reflexivity].
Qed.

Lemma token_on_every_management_request_witness :
  exists first rest,
    issued (snd (run_steps (Scenario.world_of Cases.unauthorized) Scenario.start))
    = issued Scenario.start
      ++ token_request "abc" "xyz" (api_host (Scenario.world_of Cases.unauthorized))
           (api_port (Scenario.world_of Cases.unauthorized))
      :: first :: rest
    /\ call_of first
       = (POST, mgmt_uri (api_host (Scenario.world_of Cases.unauthorized))
                  (api_port (Scenario.world_of Cases.unauthorized)) +++ "/catalogs")
    /\ Forall (fun r => Py.lookup "Authorization" (headers r)
                        = Some ("Bearer " +++ Py.str PNone)
                        /\ exists p, data r = Dumps p)
         (first :: rest).
Proof.
  apply (token_on_every_management_request (Scenario.world_of Cases.unauthorized)
           Scenario.start "abc" "xyz" PNone);
    reflexivity.
Defined.

(** With the token endpoint answering 401, the eight requests go out and
    the seven management requests carry [Bearer None]. *)
Example unauthorized_run :
  fst (run_steps (Scenario.world_of Cases.unauthorized) Scenario.start) = Ok None
  /\ map (fun r => Py.lookup "Authorization" (headers r))
       (issued (snd (run_steps (Scenario.world_of Cases.unauthorized) Scenario.start)))
     = Some "Bearer abc:xyz" :: repeat (Some "Bearer None") 7.
Proof. vm_compute. split; reflexivity. Qed.

(** *** What a step makes of the outcome of its request *)

Lemma checked_step_fst (w : world) (l : level) (m : text) (req : request)
    (msg : string) (st : state) :
  fst ((LOGGER l m ;; try_request (http w req) (check_created msg) print_error) st)
  = step_result (server w (issued st) req).
Proof.
  rewrite bind_LOGGER. unfold try_request, http, step_result.
  change (issued (snd (LOGGER l m st))) with (issued st).
  destruct (server w (issued st) req) as [r| |e];
    [|reflexivity|destruct (is_RequestException e); reflexivity].
  unfold check_created, raise_for_status, print_error, bind, lift, json, local, ret.
  destruct ((400 <=? status_code r) && (status_code r <? 600))%Z; simpl.
  - destruct (body r); reflexivity.
  - destruct (status_code r =? 201)%Z; reflexivity.
Qed.

(** X14. The five steps that only check for 201 return normally on
    every answer whose status is not 4xx or 5xx (logging success on 201
    only), and on a 4xx or 5xx answer whose body is JSON, which they
    report. They raise in two cases: [JSONDecodeError] on a 4xx or 5xx
    answer whose body is not JSON, and [UnboundLocalError] when no answer
    comes (the server is unreachable, or the library refuses the request
    with a [RequestException]), both from the handler itself; an exception
    of the library that is no [RequestException] passes through. *)
Theorem checked_step_outcome (w : world) (tok : pyval) (uri : string) (st : state) :
  (forall role,
     fst (create_principal_role w tok uri role st)
     = step_result (server w (issued st)
                      {| method := POST; url := uri +++ "/principal-roles";
                         headers := build_headers tok;
                         data := Dumps (PDict [("name", PStr role)]) |}))
  /\ (forall role principal,
        fst (assign_role_to_principal w tok uri role principal st)
        = step_result (server w (issued st)
                         {| method := PUT;
                            url := uri +++ "/principals/" +++ principal
                                   +++ "/principal-roles";
                            headers := build_headers tok;
                            data := Dumps (PDict [("principalRole",
                                                   PDict [("name", PStr role)])]) |}))
  /\ (forall catalog role,
        fst (create_catalog_role w tok uri catalog role st)
        = step_result (server w (issued st)
                         {| method := POST;
                            url := uri +++ "/catalogs/" +++ catalog +++ "/catalog-roles";
                            headers := build_headers tok;
                            data := Dumps (PDict [("catalogRole",
                                                   PDict [("name", PStr role)])]) |}))
  /\ (forall principal_role catalog_role catalog,
        fst (assign_catalog_role_to_principal_role w tok uri principal_role
               catalog_role catalog st)
        = step_result (server w (issued st)
                         {| method := PUT;
                            url := uri +++ "/principal-roles/" +++ principal_role
                                   +++ "/catalog-roles/" +++ catalog;
                            headers := build_headers tok;
                            data := Dumps (PDict [("catalogRole",
                                                   PDict [("name", PStr catalog_role)])]) |}))
  /\ (forall catalog_role catalog privilege ty,
        fst (grants_to_catalog_role_on_catalog w tok uri catalog_role catalog
               privilege ty st)
        = step_result (server w (issued st)
                         {| method := PUT;
                            url := uri +++ "/catalogs/" +++ catalog +++ "/catalog-roles/"
                                   +++ catalog_role +++ "/grants";
                            headers := build_headers tok;
                            data := Dumps (PDict [("grant",
                                                   PDict [("type", PStr ty);
                                                          ("privilege", PStr privilege)])]) |})).
Proof.
  repeat split; intros.
  - apply checked_step_fst.
  - apply checked_step_fst.
  - unfold create_catalog_role. rewrite bind_LOGGER.
    unfold try_request, http, step_result.
    match goal with |- context [server w (issued (snd (LOGGER ?l ?m st)))] =>
      change (issued (snd (LOGGER l m st))) with (issued st) end.
    destruct (server w (issued st) _) as [r| |e];
      [|reflexivity|destruct (is_RequestException e); reflexivity].
    unfold check_created, raise_for_status, bind, lift, json, local, ret.
    destruct ((400 <=? status_code r) && (status_code r <? 600))%Z; simpl.
    + destruct (body r); reflexivity.
    + destruct (status_code r =? 201)%Z; reflexivity.
  - apply checked_step_fst.
  - apply checked_step_fst.
Qed.

Lemma create_catalog_unfold_items (w : world) (tok : pyval) (uri name loc sty : string)
    (l : ref) (st : state) :
  let items := match heap st l with [] => [loc] | x :: xs => x :: xs end in
  exists st1,
    issued st1 = issued st
    /\ create_catalog w tok uri name loc sty l st
       = (LOGGER DEBUG (TJ (catalog_payload name loc sty items)) ;;
          try_request
            (http w {| method := POST; url := uri +++ "/catalogs";
                       headers := build_headers tok;
                       data := Dumps (catalog_payload name loc sty items) |})
            (fun response =>
               lift (raise_for_status response) ;;
               if (status_code response =? 201)%Z then
                 LOGGER INFO (T "Catalog Created Successfully") ;;
                 if has_content response then
                   do j <- lift (json response);
                   LOGGER DEBUG (T "Response:")
                 else ret tt
               else ret tt)
            print_error) st1.
Proof.
  cbv zeta. unfold create_catalog.
  change (bind (deref l) ?k st) with (k (heap st l) st). cbv beta.
  destruct (heap st l) as [|x xs] eqn:E.
  - exists (snd (append l loc st)). split; [reflexivity|].
    rewrite (bind_step _ _ _ tt) by reflexivity.
    change (bind (deref l) ?k ?s) with (k (heap s l) s). cbv beta.
    simpl (heap _ l). rewrite Nat.eqb_refl, E. reflexivity.
  - exists st. split; [reflexivity|].
    rewrite (bind_step _ _ _ tt) by reflexivity.
    change (bind (deref l) ?k ?s) with (k (heap s l) s). cbv beta.
    simpl (snd _). rewrite E. reflexivity.
Qed.

(** X15. [create_catalog] returns normally or raises as the checked
    steps do, with one more case: on a 201 answer with a body that is not
    empty and not JSON it raises [JSONDecodeError], since it parses the
    body of a successful answer to log it. *)
Theorem create_catalog_outcome (w : world) (tok : pyval) (uri name loc sty : string)
    (l : ref) (st : state) :
  fst (create_catalog w tok uri name loc sty l st)
  = catalog_result
      (server w (issued st)
         {| method := POST; url := uri +++ "/catalogs";
            headers := build_headers tok;
            data := Dumps (catalog_payload name loc sty
                             (match heap st l with [] => [loc] | x :: xs => x :: xs end)) |}).
Proof.
  destruct (create_catalog_unfold_items w tok uri name loc sty l st) as (st1 & Hs & ->).
  rewrite bind_LOGGER. unfold try_request, http, catalog_result.
  match goal with |- context [server w (issued (snd (LOGGER ?lv ?m st1)))] =>
    change (issued (snd (LOGGER lv m st1))) with (issued st1) end.
  rewrite Hs.
  destruct (server w (issued st) _) as [r| |e];
    [|reflexivity|destruct (is_RequestException e); reflexivity].
  unfold raise_for_status, print_error, bind, lift, json, local, ret, has_content.
  destruct ((400 <=? status_code r) && (status_code r <? 600))%Z eqn:E4; simpl.
  - destruct (body r); reflexivity.
  - destruct (status_code r =? 201)%Z; simpl; [|reflexivity].
    destruct (body r) as [|raw|j]; simpl; try reflexivity.
    destruct (String.eqb raw ""); reflexivity.
Qed.

(** X16. [create_principal] returns a pair exactly when the server
    answers 201 with a JSON body whose [credentials] object holds
    [clientId] and [clientSecret], and the pair is made of these two
    values; on any other answer it returns [None] or raises. *)
Theorem create_principal_pair (w : world) (tok : pyval) (uri name ty : string)
    (st : state) (cid secret : pyval) :
  fst (create_principal w tok uri name ty st) = Ok (Some [cid; secret])
  <-> exists resp,
        server w (issued st)
          {| method := POST; url := uri +++ "/principals";
             headers := build_headers tok;
             data := Dumps (PDict [("name", PStr name); ("type", PStr ty)]) |}
        = Responded resp
        /\ status_code resp = 201%Z
        /\ credentials_in (body resp) cid secret.
Proof.
  unfold create_principal. rewrite bind_LOGGER. unfold try_request, http.
  match goal with |- context [server w (issued (snd (LOGGER ?lv ?m st)))] =>
    change (issued (snd (LOGGER lv m st))) with (issued st) end.
  destruct (server w (issued st) _) as [r| |e]; simpl;
    [| split; [discriminate|]; intros (resp & H & _); discriminate
     | split; [destruct (is_RequestException e); discriminate|];
       intros (resp & H & _); discriminate].
  - unfold raise_for_status, print_error, bind, lift, json, local, ret, has_content,
      credentials_in.
    split.
    + destruct ((400 <=? status_code r) && (status_code r <? 600))%Z eqn:E4; simpl.
      * destruct (body r); simpl; discriminate.
      * destruct (Z.eqb_spec (status_code r) 201) as [E|E]; simpl; [|discriminate].
        destruct (body r) as [|raw|j] eqn:Hb; simpl; try discriminate.
        { destruct (String.eqb raw ""); simpl; discriminate. }
        destruct (Py.getitem j "credentials") as [creds|e1] eqn:G1; simpl;
          [|destruct e1; simpl; discriminate].
        destruct (Py.getitem creds "clientId") as [c1|e2] eqn:G2; simpl;
          [|destruct e2; simpl; discriminate].
        destruct (Py.getitem creds "clientSecret") as [c2|e3] eqn:G3; simpl;
          [|destruct e3; simpl; discriminate].
        intros [= <- <-]. exists r. split; [reflexivity|]. split; [exact E|].
        exists j, creds. auto.
    + intros (resp & [= <-] & E & j & creds & Hj & G1 & G2 & G3).
      rewrite E, Hj. simpl. rewrite G1. simpl. rewrite G2, G3. reflexivity.
Qed.

(** *** The notebook emitter *)












(** With the template missing, the emitter raises before it creates the
    directory. *)
Example missing_template :
  generate_setup_notebook_cells Cases.untemplated (PStr "pid") (PStr "psecret")
    "my_catalog" Scenario.start
  = (Raise TemplateNotFound, Scenario.start).
Proof. reflexivity. Qed.

(** *** A list of locations given by the caller *)

(** X19. When the caller's list of allowed locations is not empty,
    [create_catalog] leaves every list object as it is and issues its
    request with the list as it stands: the default base location is not added to it, whether or
    not the list holds it. *)
Theorem create_catalog_keeps_given_list (w : world) (tok : pyval)
    (uri name loc sty : string) (l : ref) (st : state) (x : string) (xs : list string) :
  heap st l = x :: xs ->
  (forall l', heap (snd (create_catalog w tok uri name loc sty l st)) l' = heap st l')
  /\ issued (snd (create_catalog w tok uri name loc sty l st))
     = issued st ++ [{| method := POST; url := uri +++ "/catalogs";
                      headers := build_headers tok;
                      data := Dumps (catalog_payload name loc sty (x :: xs)) |}].
Proof.
  intros H.
  destruct (create_catalog_effect w tok uri name loc sty l st) as (H1 & H2 & H3).
  rewrite H in H1, H3. split; [|exact H3].
  intros l'. destruct (Nat.eq_dec l' l) as [->|N]; [congruence | apply H2, N].
Qed.

Lemma create_catalog_keeps_given_list_witness :
  (forall l', heap (snd (create_catalog (Scenario.world_of Scenario.accept) (PStr "t0k3n")
                           "http://h/v1" "lake" "file:///data/lake" "S3" 1%nat
                           Cases.listed)) l'
              = heap Cases.listed l')
  /\ issued (snd (create_catalog (Scenario.world_of Scenario.accept) (PStr "t0k3n")
                  "http://h/v1" "lake" "file:///data/lake" "S3" 1%nat Cases.listed))
     = issued Cases.listed
       ++ [{| method := POST; url := "http://h/v1" +++ "/catalogs";
              headers := build_headers (PStr "t0k3n");
              data := Dumps (catalog_payload "lake" "file:///data/lake" "S3"
                               ("s3://bucket/warehouse" :: [])) |}].
Proof.
  apply (create_catalog_keeps_given_list (Scenario.world_of Scenario.accept)
           (PStr "t0k3n") "http://h/v1" "lake" "file:///data/lake" "S3" 1%nat
           Cases.listed "s3://bucket/warehouse" []).
  reflexivity.
Defined.

(** *** A run that returns has attempted every step *)

Lemma returns_after_ret {A} (a : A) : returns_after [] (ret a).
Proof. intros st v _. simpl. rewrite app_nil_r. reflexivity. Qed.

Lemma returns_after_keep {A B} (calls : list (http_method * string))
    (m : M A) (k : A -> M B) :
  keeps issued m -> (forall a, returns_after calls (k a)) ->
  returns_after calls (bind m k).
Proof.
  intros Hm Hk st v. unfold bind. specialize (Hm st).
  destruct (m st) as [[a|e] st1]; simpl in Hm; [|discriminate].
  intros H. rewrite (Hk a st1 v H), Hm. reflexivity.
Qed.

Lemma returns_after_one {A B} (c : http_method * string)
    (calls : list (http_method * string)) (m : M A) (k : A -> M B) :
  (forall st, map call_of (issued (snd (m st))) = map call_of (issued st) ++ [c]) ->
  (forall a, returns_after calls (k a)) ->
  returns_after (c :: calls) (bind m k).
Proof.
  intros Hm Hk st v. unfold bind. specialize (Hm st).
  destruct (m st) as [[a|e] st1]; simpl in Hm; [|discriminate].
  intros H. rewrite (Hk a st1 v H), Hm, <- app_assoc. reflexivity.
Qed.

Ltac one_call_done lemma :=
  eapply returns_after_one;
  [ let st := fresh "st" in intro st; rewrite lemma, map_app; reflexivity
  | intro ].

Ltac no_call_done :=
  apply returns_after_keep; [solve [primitive | auto with frame] | intro].

Lemma run_steps_returns_after (w : world) :
  returns_after
    ((POST, "http://" +++ api_host w +++ ":" +++ fmt (api_port w)
            +++ "/api/catalog/v1/oauth/tokens")
     :: management_calls w)
    (run_steps w).
Proof.
  unfold run_steps, management_calls. cbv zeta.
  apply returns_after_keep; [apply extract_keeps_sent | intro].
  no_call_done. no_call_done.
  one_call_done get_auth_token_sent.
  no_call_done.
  eapply returns_after_one;
    [ intro st;
      rewrite (proj2 (proj2 (create_catalog_effect _ _ _ _ _ _ _ st))), map_app;
      reflexivity
    | intro ].
  one_call_done create_principal_sent.
  no_call_done. no_call_done.
  one_call_done create_principal_role_sent.
  one_call_done assign_role_to_principal_sent.
  one_call_done create_catalog_role_sent.
  one_call_done assign_catalog_role_to_principal_role_sent.
  one_call_done grants_to_catalog_role_on_catalog_sent.
  apply returns_after_ret.
Qed.

(** X20. If [run_steps] returns at all, it returns [None], and it has
    issued the token request and then all seven management requests, in
    order: it never returns having skipped a step. *)
Theorem returning_run_sent_everything (w : world) (st : state)
    (v : option (list pyval)) :
  fst (run_steps w st) = Ok v ->
  v = None
  /\ map call_of (issued (snd (run_steps w st)))
     = map call_of (issued st)
       ++ (POST, "http://" +++ api_host w +++ ":" +++ fmt (api_port w)
                 +++ "/api/catalog/v1/oauth/tokens")
       :: management_calls w.
Proof.
  intros H. split.
  - exact (run_steps_returns_None w st v H).
  - exact (run_steps_returns_after w st v H).
Qed.

Lemma returning_run_sent_everything_witness :
  (None : option (list pyval)) = None
  /\ map call_of (issued (snd (run_steps (Scenario.world_of Scenario.accept)
                               Scenario.start)))
     = map call_of (issued Scenario.start)
       ++ (POST, "http://" +++ api_host (Scenario.world_of Scenario.accept) +++ ":"
                 +++ fmt (api_port (Scenario.world_of Scenario.accept))
                 +++ "/api/catalog/v1/oauth/tokens")
       :: management_calls (Scenario.world_of Scenario.accept).
Proof.
  apply (returning_run_sent_everything (Scenario.world_of Scenario.accept)
           Scenario.start None).
  vm_compute. reflexivity.
Defined.

(** *** Reports of lines without a timestamp *)





